(** * ArthaAI financial computation layer

    A shallow embedding of the numeric core of the dashboard
    ([data_processing.py], [moneyanalyser.py] and the data loop of
    [create_investment_growth_chart] in [frontend.py]), with the properties
    the specification states about it.

    Numbers.  Integer arguments (years, ages) are [Z].  Python's [float]
    values have two embeddings.

    - Exact rationals [Q], with [==] for equality of rationals: the
      formulas read in real arithmetic.  Rounding, overflow and NaN are
      outside this embedding; what is proved on it holds of the program up
      to the rounding of each operation.
    - Binary64 floats, in the module [Binary64]: the loan and investment
      formulas as the program computes them, with the rounding of each
      operation, the special cases of [**] and its OverflowError.  What
      depends on rounding is proved there.

    Errors.  A Python exception is a [Raise] in the [pyresult] monad; the
    analysers that wrap their body in [try/except] turn it into an
    [ErrorResult]. *)

From Stdlib Require Import ZArith QArith Qpower Qminmax Qfield Qabs Lia Lqa Bool List Sorted.
From Stdlib Require Floats.
From stdpp Require Import gmap strings.
Import ListNotations.

Local Open Scope Q_scope.

(** ** Python values and exceptions *)

Inductive pyexn : Type :=
| ZeroDivisionError
| OverflowError
| IndexError
| GatewayError.

Inductive pyresult (A : Type) : Type :=
| Ok (a : A)
| Raise (e : pyexn).

Arguments Ok {A} a.
Arguments Raise {A} e.

Definition pybind {A B : Type} (m : pyresult A) (k : A -> pyresult B) : pyresult B :=
  match m with
  | Ok a => k a
  | Raise e => Raise e
  end.

Notation "'let*' x ':=' m 'in' k" := (pybind m (fun x => k))
  (at level 10, x name, m at level 100, k at level 200).

(** The text of an [{"error": ...}] result: a caught exception, or the
    report that a ticker has no price history. *)
Inductive error_message : Type :=
| CaughtException (e : pyexn)
| NoTickerData (ticker : string).

(** The result of a function whose body sits in
    [try: ... except Exception as e: return {"error": ...}]. *)
Inductive analysis (A : Type) : Type :=
| Analysis (a : A)
| ErrorResult (msg : error_message).

Arguments Analysis {A} a.
Arguments ErrorResult {A} msg.

Definition try_except {A : Type} (m : pyresult (analysis A)) : analysis A :=
  match m with
  | Ok r => r
  | Raise e => ErrorResult (CaughtException e)
  end.

(** [a / b]: raises on a zero divisor. *)
Definition py_div (a b : Q) : pyresult Q :=
  if Qeq_bool b 0 then Raise ZeroDivisionError else Ok (a / b).

(** [b ** e] with an integer exponent: a zero base raised to a negative
    power raises. *)
Definition py_pow (b : Q) (e : Z) : pyresult Q :=
  if (e <? 0)%Z && Qeq_bool b 0 then Raise ZeroDivisionError else Ok (b ^ e).

(** [x > y], [x <= y] and [x >= y] as Python evaluates them. *)
Definition py_gt (x y : Q) : bool := negb (Qle_bool x y).
Definition py_le (x y : Q) : bool := Qle_bool x y.
Definition py_ge (x y : Q) : bool := Qle_bool y x.
Definition py_lt (x y : Q) : bool := negb (Qle_bool y x).

(** [min(a, b)] and [max(a, b)]: the first argument wins a tie, which is
    how [Qmin] and [Qmax] choose too. *)
Definition py_min (a b : Q) : Q := Qmin a b.
Definition py_max (a b : Q) : Q := Qmax a b.

(** [range(lo, hi)] *)
Definition py_range (lo hi : Z) : list Z :=
  map (fun i => (lo + Z.of_nat i)%Z) (seq 0 (Z.to_nat (hi - lo))).

(** A [for] loop whose body may raise: the state is threaded through the
    items and the first exception ends the loop. *)
Fixpoint py_for {S A : Type} (body : S -> A -> pyresult S) (items : list A) (s : S)
  : pyresult S :=
  match items with
  | [] => Ok s
  | x :: rest => let* s' := body s x in py_for body rest s'
  end.

(** A NumPy [float64]: division by zero yields [inf] or [nan] instead of
    raising, and both propagate through later arithmetic. *)
Inductive npfloat : Type :=
| Finite (q : Q)
| NonFinite.

Definition np_div (a b : Q) : npfloat :=
  if Qeq_bool b 0 then NonFinite else Finite (a / b).

Definition np_map (f : Q -> Q) (x : npfloat) : npfloat :=
  match x with
  | Finite q => Finite (f q)
  | NonFinite => NonFinite
  end.

Definition np_eqb (x y : npfloat) : bool :=
  match x, y with
  | Finite a, Finite b => Qeq_bool a b
  | NonFinite, NonFinite => true
  | _, _ => false
  end.

Definition opt_np_eqb (x y : option npfloat) : bool :=
  match x, y with
  | Some a, Some b => np_eqb a b
  | None, None => true
  | _, _ => false
  end.

(** [s.iloc[-k]] for [k >= 1]: the [k]-th element counted from the end. *)
Definition iloc_neg {A : Type} (l : list A) (k : nat) : pyresult A :=
  if (k <=? length l)%nat then
    match nth_error l (length l - k) with
    | Some x => Ok x
    | None => Raise IndexError
    end
  else Raise IndexError.

(** [s.iloc[i]] for [i >= 0]. *)
Definition iloc {A : Type} (l : list A) (i : nat) : pyresult A :=
  match nth_error l i with
  | Some x => Ok x
  | None => Raise IndexError
  end.

(** ** data_processing.py *)

Record BudgetSummary : Type := {
  bs_income : Q;
  bs_total_expenses : Q;
  bs_remaining : Q;
  bs_savings_rate : Q
}.

(** [sum(expenses.values())] *)
Definition sum_values (m : gmap string Q) : Q :=
  map_fold (fun _ v acc => acc + v) 0 m.

Definition calculate_budget_summary (income : Q) (expenses : gmap string Q)
  : pyresult BudgetSummary :=
  if decide (expenses = ∅) then
    Ok {| bs_income := income;
          bs_total_expenses := 0;
          bs_remaining := income;
          bs_savings_rate := if py_gt income 0 then 100 else 0 |}
  else
    let total_expenses := sum_values expenses in
    let remaining := income - total_expenses in
    let* savings_rate :=
      (if py_gt income 0 then let* q := py_div remaining income in Ok (q * 100)
       else Ok 0) in
    Ok {| bs_income := income;
          bs_total_expenses := total_expenses;
          bs_remaining := remaining;
          bs_savings_rate := savings_rate |}.

Definition calculate_investment_returns
  (initial_investment monthly_contribution : Q) (years : Z) (rate_of_return : Q)
  : pyresult (Q * Q * Q) :=
  let monthly_rate := rate_of_return / 12 in
  let months := (years * 12)%Z in
  let* g := py_pow (1 + monthly_rate) months in
  let final_amount := initial_investment * g in
  let* final_amount :=
    (if py_gt monthly_rate 0 then
       let* g' := py_pow (1 + monthly_rate) months in
       let* a := py_div (g' - 1) monthly_rate in
       Ok (final_amount + monthly_contribution * a)
     else Ok (final_amount + monthly_contribution * inject_Z months)) in
  let total_contribution :=
    initial_investment + monthly_contribution * inject_Z months in
  let total_earnings := final_amount - total_contribution in
  Ok (final_amount, total_contribution, total_earnings).

Definition calculate_loan_payment (principal annual_rate : Q) (years : Z)
  : pyresult Q :=
  let monthly_rate := annual_rate / 12 in
  let n_payments := (years * 12)%Z in
  if Qeq_bool monthly_rate 0 then
    py_div principal (inject_Z n_payments)
  else
    let* g := py_pow (1 + monthly_rate) n_payments in
    let* g' := py_pow (1 + monthly_rate) n_payments in
    py_div (principal * (monthly_rate * g)) (g' - 1).

Record AmortizationRow : Type := {
  ar_month : Z;
  ar_payment : Q;
  ar_principal : Q;
  ar_interest : Q;
  ar_remaining_balance : Q
}.

(** The body of the schedule loop.  The running [remaining_balance] is kept
    as it is; only the stored copy is clamped at zero. *)
Definition amortization_month (monthly_payment monthly_rate : Q)
  (st : Q * list AmortizationRow) (month : Z) : Q * list AmortizationRow :=
  let '(remaining_balance, schedule) := st in
  let interest_payment := remaining_balance * monthly_rate in
  let principal_payment := monthly_payment - interest_payment in
  let remaining_balance := remaining_balance - principal_payment in
  (remaining_balance,
   schedule ++ [ {| ar_month := month;
                    ar_payment := monthly_payment;
                    ar_principal := principal_payment;
                    ar_interest := interest_payment;
                    ar_remaining_balance := py_max 0 remaining_balance |} ]).

Definition generate_amortization_schedule (principal annual_rate : Q) (years : Z)
  : pyresult (list AmortizationRow) :=
  let* monthly_payment := calculate_loan_payment principal annual_rate years in
  let monthly_rate := annual_rate / 12 in
  let n_payments := (years * 12)%Z in
  Ok (snd (fold_left (amortization_month monthly_payment monthly_rate)
                     (py_range 1 (n_payments + 1)) (principal, []))).

(** ** frontend.py: the data points behind the growth chart *)

Record InvestmentPoint : Type := {
  ip_year : Z;
  ip_value : Q;
  ip_contributions : Q;
  ip_earnings : Q
}.

(** One pass of the inner [for _ in range(12)] body. *)
Definition growth_month (monthly_rate monthly_contribution : Q) (st : Q * Q) : Q * Q :=
  let '(current_value, total_contributions) := st in
  (current_value * (1 + monthly_rate) + monthly_contribution,
   total_contributions + monthly_contribution).

(** The body of the [for year in range(1, years + 1)] loop. *)
Definition growth_year (monthly_rate monthly_contribution : Q)
  (st : Q * Q * list InvestmentPoint) (year : Z) : Q * Q * list InvestmentPoint :=
  let '(v, c, data) := st in
  let '(current_value, total_contributions) :=
    Nat.iter 12 (growth_month monthly_rate monthly_contribution) (v, c) in
  let earnings := current_value - total_contributions in
  (current_value, total_contributions,
   data ++ [ {| ip_year := year;
                ip_value := current_value;
                ip_contributions := total_contributions;
                ip_earnings := earnings |} ]).

(** The list [data] that [create_investment_growth_chart] builds and then
    hands to the plotting library. *)
Definition create_investment_growth_chart
  (initial_investment monthly_contribution : Q) (years : Z) (rate_of_return : Q)
  : list InvestmentPoint :=
  let monthly_rate := rate_of_return / 12 in
  let current_value := initial_investment in
  let total_contributions := initial_investment in
  let data := [ {| ip_year := 0;
                   ip_value := current_value;
                   ip_contributions := total_contributions;
                   ip_earnings := 0 |} ] in
  snd (fold_left (growth_year monthly_rate monthly_contribution)
                 (py_range 1 (years + 1))
                 (current_value, total_contributions, data)).

(** ** moneyanalyser.py *)

(** [None] is the "undefined" sentinel. *)
Definition calculate_debt_to_income_ratio (monthly_debt_payments monthly_income : Q)
  : pyresult (option Q) :=
  if py_le monthly_income 0 then Ok None
  else let* q := py_div monthly_debt_payments monthly_income in Ok (Some q).

Record RetirementAnalysis : Type := {
  ra_years_until_retirement : Z;
  ra_retirement_years : Z;
  ra_projected_savings : Q;
  ra_sustainable_annual_income : Q;
  ra_income_gap : Q;
  ra_income_gap_percentage : Q;
  ra_on_track : bool
}.

Definition analyze_retirement_readiness
  (current_age retirement_age life_expectancy : Z)
  (current_savings monthly_contribution expected_return desired_retirement_income : Q)
  : analysis RetirementAnalysis :=
  try_except (
    let years_until_retirement := (retirement_age - current_age)%Z in
    let retirement_years := (life_expectancy - retirement_age)%Z in
    let* g := py_pow (1 + expected_return) years_until_retirement in
    let future_value_current_savings := current_savings * g in
    let monthly_return := expected_return / 12 in
    let months_until_retirement := (years_until_retirement * 12)%Z in
    let* future_value_contributions :=
      (if py_gt monthly_return 0 then
         let* g' := py_pow (1 + monthly_return) months_until_retirement in
         let* a := py_div (g' - 1) monthly_return in
         Ok (monthly_contribution * a)
       else Ok (monthly_contribution * inject_Z months_until_retirement)) in
    let projected_savings := future_value_current_savings + future_value_contributions in
    let sustainable_withdrawal_rate := 4 # 100 in
    let sustainable_annual_income := projected_savings * sustainable_withdrawal_rate in
    let income_gap := desired_retirement_income - sustainable_annual_income in
    let* income_gap_percentage :=
      (if py_gt desired_retirement_income 0 then
         let* q := py_div income_gap desired_retirement_income in Ok (q * 100)
       else Ok 0) in
    let on_track := py_ge sustainable_annual_income desired_retirement_income in
    Ok (Analysis {| ra_years_until_retirement := years_until_retirement;
          ra_retirement_years := retirement_years;
          ra_projected_savings := projected_savings;
          ra_sustainable_annual_income := sustainable_annual_income;
          ra_income_gap := income_gap;
          ra_income_gap_percentage := income_gap_percentage;
          ra_on_track := on_track |})).

Record PaymentDetails : Type := {
  pd_mortgage : Q;
  pd_property_tax : Q;
  pd_insurance : Q;
  pd_pmi : Q
}.

Record PriceRange : Type := {
  pr_home_price : Z;
  pr_monthly_payment : Q;
  pr_affordable : bool;
  pr_details : PaymentDetails
}.

Record MortgageAffordability : Type := {
  ma_max_housing_payment : Q;
  ma_max_affordable_price : Z;
  ma_price_ranges : list PriceRange
}.

(** The body of the [for price_multiple in range(1, 16)] loop; the state is
    [(price_ranges, max_price)]. *)
Definition mortgage_price_point
  (max_housing_payment down_payment monthly_rate : Q) (total_payments : Z)
  (property_tax_rate insurance pmi_rate : Q)
  (st : list PriceRange * Z) (price_multiple : Z) : pyresult (list PriceRange * Z) :=
  let '(price_ranges, max_price) := st in
  let home_price := (price_multiple * 50000)%Z in
  let loan_amount := inject_Z home_price - down_payment in
  if py_le loan_amount 0 then Ok st
  else
    let* ratio := py_div down_payment (inject_Z home_price) in
    let pmi_required := py_lt ratio (2 # 10) in
    let monthly_pmi := if pmi_required then loan_amount * pmi_rate / 12 else 0 in
    let* monthly_mortgage :=
      (if Qeq_bool monthly_rate 0 then
         py_div loan_amount (inject_Z total_payments)
       else
         let* g := py_pow (1 + monthly_rate) total_payments in
         let* g' := py_pow (1 + monthly_rate) total_payments in
         py_div (loan_amount * (monthly_rate * g)) (g' - 1)) in
    let monthly_tax := (inject_Z home_price * property_tax_rate) / 12 in
    let monthly_total := monthly_mortgage + monthly_tax + insurance + monthly_pmi in
    let affordable := py_le monthly_total max_housing_payment in
    Ok (price_ranges ++ [ {| pr_home_price := home_price;
                             pr_monthly_payment := monthly_total;
                             pr_affordable := affordable;
                             pr_details := {| pd_mortgage := monthly_mortgage;
                                              pd_property_tax := monthly_tax;
                                              pd_insurance := insurance;
                                              pd_pmi := monthly_pmi |} |} ],
        if affordable then home_price else max_price).

Definition analyze_mortgage_affordability
  (income debt down_payment interest_rate : Q) (term_years : Z)
  (property_tax_rate insurance pmi_rate : Q) : analysis MortgageAffordability :=
  try_except (
    let monthly_income := income / 12 in
    let front_end_max := monthly_income * (28 # 100) in
    let back_end_max := monthly_income * (36 # 100) - debt in
    let max_housing_payment := py_min front_end_max back_end_max in
    let monthly_rate := interest_rate / 12 in
    let total_payments := (term_years * 12)%Z in
    let* st := py_for (mortgage_price_point max_housing_payment down_payment
                         monthly_rate total_payments
                         property_tax_rate insurance pmi_rate)
                      (py_range 1 16) ([], 0%Z) in
    let '(price_ranges, max_price) := st in
    Ok (Analysis {| ma_max_housing_payment := max_housing_payment;
          ma_max_affordable_price := max_price;
          ma_price_ranges := price_ranges |})).

(** The keyword defaults of [analyze_mortgage_affordability]. *)
Definition default_property_tax_rate : Q := 1 # 100.
Definition default_insurance : Q := 100.
Definition default_pmi_rate : Q := 5 # 1000.

(** *** Market data *)

Inductive period : Type := Period1d | Period1y.

(** A row of the price history frame. *)
Record PriceBar : Type := {
  pb_high : Q;
  pb_low : Q;
  pb_close : Q
}.

(** The fields read from [stock.info]; [None] is an absent key. *)
Record StockInfo : Type := {
  si_longName : option string;
  si_trailingPE : option Q;
  si_dividendYield : option Q
}.

Record StockReturns : Type := {
  sr_1mo : option npfloat;
  sr_3mo : option npfloat;
  sr_1yr : option npfloat
}.

Record StockMetrics : Type := {
  sm_name : string;
  sm_current_price : Q;
  sm_price_52wk_high : Q;
  sm_price_52wk_low : Q;
  sm_pe_ratio : option Q;
  sm_dividend_yield : Q;
  sm_returns : StockReturns
}.

Record PortfolioHolding : Type := {
  ph_ticker : string;
  ph_shares : Q;
  ph_cost_basis : Q
}.

Record HoldingData : Type := {
  hd_ticker : string;
  hd_shares : Q;
  hd_cost_basis : Q;
  hd_latest_price : Q;
  hd_current_value : Q;
  hd_gain_loss : Q;
  hd_gain_loss_pct : Q
}.

Record PortfolioMetrics : Type := {
  pm_total_value : Q;
  pm_total_cost : Q;
  pm_total_gain_loss : Q;
  pm_total_gain_loss_pct : Q;
  pm_holdings_data : list HoldingData
}.

(** [((current_price / past) - 1) * 100] on [float64] values. *)
Definition trailing_return (current_price past : Q) : npfloat :=
  np_map (fun q => (q - 1) * 100) (np_div current_price past).

(** [series.max()] and [series.min()] of a non-empty column. *)
Definition series_max (default : Q) (l : list Q) : Q :=
  match l with
  | [] => default
  | x :: rest => fold_left Qmax rest x
  end.

Definition series_min (default : Q) (l : list Q) : Q :=
  match l with
  | [] => default
  | x :: rest => fold_left Qmin rest x
  end.

Section MarketData.

(** The market data provider: [yf.Ticker(t).info] and
    [yf.Ticker(t).history(period=p)]; either call may raise. *)
Variable ticker_info : string -> pyresult StockInfo.
Variable ticker_history : string -> period -> pyresult (list PriceBar).

Definition get_stock_metrics (ticker : string) : analysis StockMetrics :=
  try_except (
    let* info := ticker_info ticker in
    let* hist := ticker_history ticker Period1y in
    match hist with
    | [] => Ok (ErrorResult (NoTickerData ticker))
    | _ :: _ =>
      let closes := map pb_close hist in
      let* current_price := iloc_neg closes 1 in
      let price_52wk_high := series_max 0 (map pb_high hist) in
      let price_52wk_low := series_min 0 (map pb_low hist) in
      let* return_1mo :=
        (if (21 <=? length hist)%nat then
           let* price_1mo_ago := iloc_neg closes 21 in
           Ok (Some (trailing_return current_price price_1mo_ago))
         else Ok None) in
      let* return_3mo :=
        (if (63 <=? length hist)%nat then
           let* price_3mo_ago := iloc_neg closes 63 in
           Ok (Some (trailing_return current_price price_3mo_ago))
         else Ok None) in
      let* return_1yr :=
        (if (252 <=? length hist)%nat then
           let* price_1yr_ago := iloc closes 0 in
           Ok (Some (trailing_return current_price price_1yr_ago))
         else Ok None) in
      let name := default ticker (si_longName info) in
      let pe_ratio := si_trailingPE info in
      let dividend_yield := default 0 (si_dividendYield info) in
      let dividend_yield :=
        if Qeq_bool dividend_yield 0 then dividend_yield else dividend_yield * 100 in
      Ok (Analysis {| sm_name := name;
            sm_current_price := current_price;
            sm_price_52wk_high := price_52wk_high;
            sm_price_52wk_low := price_52wk_low;
            sm_pe_ratio := pe_ratio;
            sm_dividend_yield := dividend_yield;
            sm_returns := {| sr_1mo := return_1mo;
                             sr_3mo := return_3mo;
                             sr_1yr := return_1yr |} |})
    end).

(** The body of the [for holding in holdings] loop; the state is
    [(holdings_data, total_value, total_cost)]. *)
Definition portfolio_holding (st : list HoldingData * Q * Q) (holding : PortfolioHolding)
  : pyresult (list HoldingData * Q * Q) :=
  let '(holdings_data, total_value, total_cost) := st in
  let ticker := ph_ticker holding in
  let shares := ph_shares holding in
  let cost_basis := ph_cost_basis holding in
  let* hist := ticker_history ticker Period1d in
  match hist with
  | [] => Ok st
  | _ :: _ =>
    let* latest_price := iloc_neg (map pb_close hist) 1 in
    let current_value := shares * latest_price in
    let total_cost_basis := shares * cost_basis in
    let gain_loss := current_value - total_cost_basis in
    let* gain_loss_pct :=
      (if py_gt total_cost_basis 0 then
         let* q := py_div gain_loss total_cost_basis in Ok (q * 100)
       else Ok 0) in
    Ok (holdings_data ++ [ {| hd_ticker := ticker;
                              hd_shares := shares;
                              hd_cost_basis := cost_basis;
                              hd_latest_price := latest_price;
                              hd_current_value := current_value;
                              hd_gain_loss := gain_loss;
                              hd_gain_loss_pct := gain_loss_pct |} ],
        total_value + current_value,
        total_cost + total_cost_basis)
  end.

(** [holdings] is [None] for Python's [None]; [None] and the empty list
    are the falsy values a caller can pass. *)
Definition calculate_portfolio_metrics (holdings : option (list PortfolioHolding))
  : analysis PortfolioMetrics :=
  try_except (
    match holdings with
    | None | Some [] =>
      Ok (Analysis {| pm_total_value := 0;
            pm_total_cost := 0;
            pm_total_gain_loss := 0;
            pm_total_gain_loss_pct := 0;
            pm_holdings_data := [] |})
    | Some (h :: hs) =>
      let* st := py_for portfolio_holding (h :: hs) ([], 0, 0) in
      let '(holdings_data, total_value, total_cost) := st in
      let total_gain_loss := total_value - total_cost in
      let* total_gain_loss_pct :=
        (if py_gt total_cost 0 then
           let* q := py_div total_gain_loss total_cost in Ok (q * 100)
         else Ok 0) in
      Ok (Analysis {| pm_total_value := total_value;
            pm_total_cost := total_cost;
            pm_total_gain_loss := total_gain_loss;
            pm_total_gain_loss_pct := total_gain_loss_pct;
            pm_holdings_data := holdings_data |})
    end).

End MarketData.

(** ** Derived quantities the properties are stated with *)

(** The sum of the [principal] column of a schedule. *)
Definition sum_principal (rows : list AmortizationRow) : Q :=
  fold_right (fun row acc => ar_principal row + acc) 0 rows.

(** The running [remaining_balance] after one more pass of the schedule
    loop. *)
Definition balance_step (monthly_payment monthly_rate balance : Q) : Q :=
  balance - (monthly_payment - balance * monthly_rate).

Section MortgageSweep.

Variables max_housing_payment down_payment monthly_rate : Q.
Variable total_payments : Z.
Variables property_tax_rate insurance pmi_rate : Q.

(** The columns of a price point as the loop body computes them when none
    of its divisions raises. *)
Definition mortgage_at (home_price : Z) : Q :=
  let loan_amount := inject_Z home_price - down_payment in
  if Qeq_bool monthly_rate 0 then loan_amount / inject_Z total_payments
  else loan_amount * (monthly_rate * (1 + monthly_rate) ^ total_payments)
       / ((1 + monthly_rate) ^ total_payments - 1).

Definition pmi_at (home_price : Z) : Q :=
  let loan_amount := inject_Z home_price - down_payment in
  if py_lt (down_payment / inject_Z home_price) (2 # 10)
  then loan_amount * pmi_rate / 12 else 0.

Definition property_tax_at (home_price : Z) : Q :=
  inject_Z home_price * property_tax_rate / 12.

Definition monthly_total_at (home_price : Z) : Q :=
  mortgage_at home_price + property_tax_at home_price + insurance + pmi_at home_price.

Definition price_point_at (price_multiple : Z) : PriceRange :=
  let home_price := (price_multiple * 50000)%Z in
  {| pr_home_price := home_price;
     pr_monthly_payment := monthly_total_at home_price;
     pr_affordable := py_le (monthly_total_at home_price) max_housing_payment;
     pr_details := {| pd_mortgage := mortgage_at home_price;
                      pd_property_tax := property_tax_at home_price;
                      pd_insurance := insurance;
                      pd_pmi := pmi_at home_price |} |}.

(** The price multiples the loop does not skip: those with a positive loan
    amount. *)
Definition has_loan (price_multiple : Z) : bool :=
  negb (py_le (inject_Z (price_multiple * 50000) - down_payment) 0).

(** The loop body without its exceptions. *)
Definition sweep_step (st : list PriceRange * Z) (price_multiple : Z)
  : list PriceRange * Z :=
  if has_loan price_multiple then
    (fst st ++ [price_point_at price_multiple],
     if pr_affordable (price_point_at price_multiple)
     then pr_home_price (price_point_at price_multiple) else snd st)
  else st.

(** The points the loop appends for a list of price multiples. *)
Definition sweep_points (price_multiples : list Z) : list PriceRange :=
  map price_point_at (List.filter has_loan price_multiples).

End MortgageSweep.

(** [max_price] after the loop has gone through [points], starting from
    [max_price0]: the price of the last point flagged affordable. *)
Definition last_affordable (max_price0 : Z) (points : list PriceRange) : Z :=
  fold_left (fun max_price p => if pr_affordable p then pr_home_price p else max_price)
            points max_price0.

(** The close [k] rows from the end of the history, the latest close being
    row 1: what [iloc[-k]] reads. *)
Definition close_from_end (closes : list Q) (k : nat) : option Q :=
  nth_error (rev closes) (k - 1).

(** The trailing return over a window of [k] trading days as the
    specification words it: null with fewer than [k] rows, and otherwise
    the latest close against the close at offset [k] from it. *)
Definition spec_window_return (closes : list Q) (k : nat) : option npfloat :=
  if (length closes <? k)%nat then None
  else match close_from_end closes 1, close_from_end closes k with
       | Some current_price, Some past => Some (trailing_return current_price past)
       | _, _ => None
       end.

(** A history of 253 daily rows: the oldest close is 1, the next 2, and
    every later one 4. *)
Definition history_253 : list PriceBar :=
  map (fun c => {| pb_high := c; pb_low := c; pb_close := c |})
      (1 :: 2 :: repeat 4 251).

Definition no_info : StockInfo :=
  {| si_longName := None; si_trailingPE := None; si_dividendYield := None |}.

(** The state [(current_value, total_contributions)] of the growth loop
    after [k] passes of its inner body, from an initial investment [v]. *)
Definition growth_state (monthly_rate monthly_contribution v : Q) (k : nat) : Q * Q :=
  Nat.iter k (growth_month monthly_rate monthly_contribution) (v, v).

(** The point the growth loop appends at the end of year [k]. *)
Definition growth_point (monthly_rate monthly_contribution v : Q) (k : nat)
  : InvestmentPoint :=
  let st := growth_state monthly_rate monthly_contribution v (12 * k) in
  {| ip_year := Z.of_nat k;
     ip_value := fst st;
     ip_contributions := snd st;
     ip_earnings := fst st - snd st |}.

(** ** Further definitions *)

(** The running [remaining_balance] of the schedule loop after [k] months. *)
Definition balance_after (monthly_payment monthly_rate principal : Q) (k : nat) : Q :=
  Nat.iter k (balance_step monthly_payment monthly_rate) principal.

(** The row the schedule loop appends in its pass number [k] (from 0), that
    is for month [k + 1]. *)
Definition amortization_row (monthly_payment monthly_rate principal : Q) (k : nat)
  : AmortizationRow :=
  let balance := balance_after monthly_payment monthly_rate principal k in
  {| ar_month := Z.of_nat (S k);
     ar_payment := monthly_payment;
     ar_principal := monthly_payment - balance * monthly_rate;
     ar_interest := balance * monthly_rate;
     ar_remaining_balance :=
       py_max 0 (balance - (monthly_payment - balance * monthly_rate)) |}.

(** [calculate_net_worth]: each argument is a mapping or [None]; a falsy
    argument counts as a total of 0. *)
Definition calculate_net_worth (assets liabilities : option (gmap string Q))
  : Q * Q * Q :=
  let assets_total :=
    match assets with
    | Some m => if decide (m = ∅) then 0 else sum_values m
    | None => 0
    end in
  let liabilities_total :=
    match liabilities with
    | Some m => if decide (m = ∅) then 0 else sum_values m
    | None => 0
    end in
  let net_worth := assets_total - liabilities_total in
  (net_worth, assets_total, liabilities_total).

Definition calculate_emergency_fund_ratio (emergency_fund monthly_expenses : Q)
  : pyresult (option Q) :=
  if py_le monthly_expenses 0 then Ok None
  else let* q := py_div emergency_fund monthly_expenses in Ok (Some q).

(** The sum of a column over a list of records. *)
Definition sum_over {A : Type} (f : A -> Q) (l : list A) : Q :=
  fold_right (fun x acc => f x + acc) 0 l.

(** *** categorize_expenses *)

(** A transaction dictionary with its two keys. *)
Record Transaction : Type := {
  tr_amount : Q;
  tr_description : string
}.

(** [keyword in description]: the substring test. *)
Definition py_contains (keyword description : string) : bool :=
  match String.index 0 keyword description with
  | Some _ => true
  | None => false
  end.

(** The keyword table, in the order of the dictionary literal. *)
Definition category_keywords : list (string * list string) :=
  [ ("Housing", ["rent"; "mortgage"; "hoa"; "property tax"]);
    ("Utilities", ["electric"; "gas"; "water"; "internet"; "phone"; "utility"]);
    ("Groceries", ["grocery"; "groceries"; "supermarket"; "food"]);
    ("Transportation",
     ["gas"; "fuel"; "car"; "auto"; "transportation"; "uber"; "lyft"; "taxi"]);
    ("Dining",
     ["restaurant"; "cafe"; "coffee"; "dining"; "doordash"; "grubhub"; "takeout"]);
    ("Entertainment", ["movie"; "subscription"; "netflix"; "spotify"; "entertainment"]);
    ("Shopping", ["amazon"; "walmart"; "target"; "shopping"; "clothes"; "clothing"]);
    ("Health",
     ["doctor"; "medical"; "pharmacy"; "health"; "insurance"; "dental"; "vision"]);
    ("Education", ["school"; "tuition"; "book"; "course"; "education"]);
    ("Personal", ["haircut"; "gym"; "fitness"; "personal"]) ]%string.

(** [categories] before the loop: every category of the table, and
    ["Other"], at 0. *)
Definition initial_categories : gmap string Q :=
  <["Other"%string := 0]>
    (list_to_map (map (fun ck => (fst ck, 0)) category_keywords)).

(** The inner loop with its [break]: the first category of the table one
    of whose keywords occurs in the description. *)
Definition matching_category (description : string) : option string :=
  fst <$> List.find
            (fun ck => existsb (fun keyword => py_contains keyword description) (snd ck))
            category_keywords.

(** [categories[category] += x]; [None] stands for the KeyError of a
    missing key. *)
Definition add_to_category (categories : gmap string Q) (category : string) (x : Q)
  : option (gmap string Q) :=
  match categories !! category with
  | Some v => Some (<[category := v + x]> categories)
  | None => None
  end.

(** A loop whose body may fail with a KeyError. *)
Fixpoint option_for {S A : Type} (body : S -> A -> option S) (items : list A) (s : S)
  : option S :=
  match items with
  | [] => Some s
  | x :: rest =>
      match body s x with
      | Some s' => option_for body rest s'
      | None => None
      end
  end.

Section Categorize.

(** [str.lower] of the Python runtime. *)
Variable str_lower : string -> string.

(** The body of the loop over the transactions. *)
Definition categorize_transaction (categories : gmap string Q) (transaction : Transaction)
  : option (gmap string Q) :=
  let amount := tr_amount transaction in
  let description := str_lower (tr_description transaction) in
  if py_le amount 0 then
    let expense_amount := Qabs amount in
    match matching_category description with
    | Some category => add_to_category categories category expense_amount
    | None => add_to_category categories "Other" expense_amount
    end
  else Some categories.

Definition categorize_expenses (transactions : list Transaction)
  : option (gmap string Q) :=
  match option_for categorize_transaction transactions initial_categories with
  | Some categories =>
      Some (filter (fun kv : string * Q => py_gt (snd kv) 0 = true) categories)
  | None => None
  end.

End Categorize.

(** The amount a transaction adds to the categories: its absolute value
    when it is an expense ([amount <= 0]), nothing otherwise. *)
Definition expense_amount_of (transaction : Transaction) : Q :=
  if py_le (tr_amount transaction) 0 then Qabs (tr_amount transaction) else 0.

Definition category_names : list string :=
  map fst category_keywords ++ ["Other"%string].

(** The state of the categorization loop: exactly the eleven categories,
    none negative. *)
Definition categories_ok (m : gmap string Q) : Prop :=
  (forall c, is_Some (m !! c) <-> In c category_names) /\
  map_Forall (fun _ v => 0 <= v) m.

(** ** The loan and investment formulas on binary64 floats

    The same source functions with Python's [float] as the primitive
    binary64 type, rounding included: what the program computes bit for
    bit.  Amounts and rates are floats, years are integers. *)

Module Binary64.

Import PrimFloat.

Local Open Scope float_scope.

(** The conversion of a Python [int] to [float]: rounded to nearest even;
    an integer beyond the float range raises OverflowError. *)
Definition float_of_int (z : Z) : pyresult float :=
  let f := FloatOps.SF2Prim
             (SpecFloat.binary_normalize FloatOps.prec FloatOps.emax z 0 false) in
  if is_infinity f then Raise OverflowError else Ok f.

(** [a / b] on floats: a zero divisor of either sign raises. *)
Definition float_div (a b : float) : pyresult float :=
  if is_zero b then Raise ZeroDivisionError else Ok (a / b).

Section Pow.

(** The [pow] of the C library, which [float ** int] calls on the operands
    that none of its special cases settles; its rounding is the
    platform's. *)
Variable libm_pow : float -> float -> float.

(** [iv ** n] for a float [iv] and an integer [n], in the order of
    CPython's [float_pow]: the exponent is converted to a float [iw]; a
    zero exponent gives 1; a NaN base is returned; an infinite or zero base
    is settled by the sign and parity of the exponent, a zero base with a
    negative exponent raising ZeroDivisionError; a negative base is negated
    and the sign restored for an odd exponent; a base of 1 gives 1; an
    infinite result of [pow] raises OverflowError. *)
Definition py_float_pow (iv : float) (n : Z) : pyresult float :=
  let* iw := float_of_int n in
  let iw_is_odd := Z.odd n && (Z.abs n <? 2 ^ 53)%Z in
  if (n =? 0)%Z then Ok 1
  else if is_nan iv then Ok iv
  else if is_infinity iv then
    if (0 <? n)%Z then Ok (if iw_is_odd then iv else abs iv)
    else Ok (if iw_is_odd && get_sign iv then neg_zero else 0)
  else if is_zero iv then
    if (n <? 0)%Z then Raise ZeroDivisionError
    else Ok (if iw_is_odd then iv else 0)
  else
    let negate_result := (iv <? 0) && iw_is_odd in
    let iv := if iv <? 0 then - iv else iv in
    if iv =? 1 then Ok (if negate_result then -1 else 1)
    else
      let ix := libm_pow iv iw in
      let ix := if negate_result then - ix else ix in
      if is_infinity ix then Raise OverflowError else Ok ix.

Definition calculate_investment_returns
  (initial_investment monthly_contribution : float) (years : Z) (rate_of_return : float)
  : pyresult (float * float * float) :=
  let monthly_rate := rate_of_return / 12 in
  let months := (years * 12)%Z in
  let* g := py_float_pow (1 + monthly_rate) months in
  let final_amount := initial_investment * g in
  let* final_amount :=
    (if 0 <? monthly_rate then
       let* g' := py_float_pow (1 + monthly_rate) months in
       let* a := float_div (g' - 1) monthly_rate in
       Ok (final_amount + monthly_contribution * a)
     else
       let* m := float_of_int months in
       Ok (final_amount + monthly_contribution * m)) in
  let* m := float_of_int months in
  let total_contribution := initial_investment + monthly_contribution * m in
  let total_earnings := final_amount - total_contribution in
  Ok (final_amount, total_contribution, total_earnings).

Definition calculate_loan_payment (principal annual_rate : float) (years : Z)
  : pyresult float :=
  let monthly_rate := annual_rate / 12 in
  let n_payments := (years * 12)%Z in
  if monthly_rate =? 0 then
    let* n := float_of_int n_payments in
    float_div principal n
  else
    let* g := py_float_pow (1 + monthly_rate) n_payments in
    let* g' := py_float_pow (1 + monthly_rate) n_payments in
    float_div (principal * (monthly_rate * g)) (g' - 1).

Record AmortizationRow : Type := {
  ar_month : Z;
  ar_payment : float;
  ar_principal : float;
  ar_interest : float;
  ar_remaining_balance : float
}.

(** [max(0, x)]: [x] when it is greater than 0, else 0. *)
Definition max_0 (x : float) : float := if 0 <? x then x else 0.

Definition amortization_month (monthly_payment monthly_rate : float)
  (st : float * list AmortizationRow) (month : Z) : float * list AmortizationRow :=
  let '(remaining_balance, schedule) := st in
  let interest_payment := remaining_balance * monthly_rate in
  let principal_payment := monthly_payment - interest_payment in
  let remaining_balance := remaining_balance - principal_payment in
  (remaining_balance,
   schedule ++ [ {| ar_month := month;
                    ar_payment := monthly_payment;
                    ar_principal := principal_payment;
                    ar_interest := interest_payment;
                    ar_remaining_balance := max_0 remaining_balance |} ]).

Definition generate_amortization_schedule (principal annual_rate : float) (years : Z)
  : pyresult (list AmortizationRow) :=
  let* monthly_payment := calculate_loan_payment principal annual_rate years in
  let monthly_rate := annual_rate / 12 in
  let n_payments := (years * 12)%Z in
  Ok (snd (fold_left (amortization_month monthly_payment monthly_rate)
                     (py_range 1 (n_payments + 1)) (principal, []))).

End Pow.

Record InvestmentPoint : Type := {
  ip_year : Z;
  ip_value : float;
  ip_contributions : float;
  ip_earnings : float
}.

Definition growth_month (monthly_rate monthly_contribution : float)
  (st : float * float) : float * float :=
  let '(current_value, total_contributions) := st in
  (current_value * (1 + monthly_rate) + monthly_contribution,
   total_contributions + monthly_contribution).

Definition growth_year (monthly_rate monthly_contribution : float)
  (st : float * float * list InvestmentPoint) (year : Z)
  : float * float * list InvestmentPoint :=
  let '(v, c, data) := st in
  let '(current_value, total_contributions) :=
    Nat.iter 12 (growth_month monthly_rate monthly_contribution) (v, c) in
  let earnings := current_value - total_contributions in
  (current_value, total_contributions,
   data ++ [ {| ip_year := year;
                ip_value := current_value;
                ip_contributions := total_contributions;
                ip_earnings := earnings |} ]).

Definition create_investment_growth_chart
  (initial_investment monthly_contribution : float) (years : Z) (rate_of_return : float)
  : list InvestmentPoint :=
  let monthly_rate := rate_of_return / 12 in
  let current_value := initial_investment in
  let total_contributions := initial_investment in
  let data := [ {| ip_year := 0;
                   ip_value := current_value;
                   ip_contributions := total_contributions;
                   ip_earnings := 0 |} ] in
  snd (fold_left (growth_year monthly_rate monthly_contribution)
                 (py_range 1 (years + 1))
                 (current_value, total_contributions, data)).

(** The rate [2 ** -57], below half the spacing of the floats at 1. *)
Definition tiny_rate : float := 0x1p-57.

End Binary64.

(** * Properties *)

(** ** Comparisons, division and powers *)

Lemma py_gt_true x y : py_gt x y = true <-> y < x.
Proof.
  unfold py_gt. rewrite negb_true_iff, <- not_true_iff_false, Qle_bool_iff.
  split; [apply Qnot_le_lt | apply Qlt_not_le].
Qed.

Lemma py_gt_false x y : py_gt x y = false <-> x <= y.
Proof. unfold py_gt. rewrite negb_false_iff. apply Qle_bool_iff. Qed.

Lemma py_lt_true x y : py_lt x y = true <-> x < y.
Proof. apply py_gt_true. Qed.

Lemma py_lt_false x y : py_lt x y = false <-> y <= x.
Proof. apply py_gt_false. Qed.

Lemma py_le_true x y : py_le x y = true <-> x <= y.
Proof. apply Qle_bool_iff. Qed.

Lemma py_le_false x y : py_le x y = false <-> y < x.
Proof.
  unfold py_le. rewrite <- not_true_iff_false, Qle_bool_iff.
  split; [apply Qnot_le_lt | apply Qlt_not_le].
Qed.

Lemma py_ge_true x y : py_ge x y = true <-> y <= x.
Proof. apply Qle_bool_iff. Qed.

Lemma Qeq_bool_false x y : Qeq_bool x y = false <-> ~ x == y.
Proof. rewrite <- not_true_iff_false, Qeq_bool_iff. reflexivity. Qed.

Lemma py_div_ok a b : ~ b == 0 -> py_div a b = Ok (a / b).
Proof.
  intros Hb. unfold py_div.
  destruct (Qeq_bool b 0) eqn:E; [|reflexivity].
  apply Qeq_bool_iff in E. contradiction.
Qed.

Lemma py_div_inv a b q : py_div a b = Ok q -> ~ b == 0 /\ q = a / b.
Proof.
  unfold py_div. destruct (Qeq_bool b 0) eqn:E; [discriminate|].
  intros [= <-]. split; [|reflexivity]. now apply Qeq_bool_false.
Qed.

Lemma py_pow_ok b e : 0 < b -> py_pow b e = Ok (b ^ e).
Proof.
  intros Hb. unfold py_pow.
  destruct (Qeq_bool b 0) eqn:E; [|now rewrite andb_false_r].
  apply Qeq_bool_iff in E. rewrite E in Hb. now apply Qlt_irrefl in Hb.
Qed.

(** Take the successful branch of every bind in a hypothesis. *)
Ltac ok_binds H :=
  repeat match type of H with
         | context [pybind ?m _] =>
             let E := fresh "E" in
             destruct m eqn:E; cbn [pybind] in H; [|discriminate H]
         end.

(** ** Budget summary *)

(** C6: with an empty expense mapping and [income >= 0] the summary has
    [total_expenses = 0], [remaining = income], and a savings rate of 100
    if [income > 0] and of 0 if [income == 0]. *)
Theorem budget_summary_empty_expenses (income : Q) :
  0 <= income ->
  exists s, calculate_budget_summary income ∅ = Ok s /\
    bs_total_expenses s = 0 /\
    bs_remaining s = income /\
    (0 < income -> bs_savings_rate s = 100) /\
    (income == 0 -> bs_savings_rate s = 0).
Proof.
  intros _. unfold calculate_budget_summary.
  rewrite decide_True by reflexivity.
  eexists. split; [reflexivity|]. cbn.
  repeat split.
  - intros H. apply py_gt_true in H. now rewrite H.
  - intros H. assert (E : py_gt income 0 = false).
    { apply py_gt_false. rewrite H. apply Qle_refl. }
    now rewrite E.
Qed.

Lemma budget_summary_empty_expenses_witness :
  0 <= 2500 /\
  exists s, calculate_budget_summary 2500 ∅ = Ok s /\
    bs_total_expenses s = 0 /\
    bs_remaining s = 2500 /\
    (0 < 2500 -> bs_savings_rate s = 100) /\
    (2500 == 0 -> bs_savings_rate s = 0).
Proof.
  assert (H : 0 <= 2500) by (unfold Qle; simpl; lia).
  split; [exact H | exact (budget_summary_empty_expenses 2500 H)].
Defined.

(** ** Loan payment *)



(** ** Debt-to-income ratio *)

(** C8: the ratio is the [None] sentinel, not an exception, whenever
    [monthly_income <= 0], and [monthly_debt / monthly_income] whenever
    [monthly_income > 0]; at income 0 it is the sentinel for every debt. *)
Theorem debt_to_income_ratio_spec (monthly_debt monthly_income : Q) :
  (monthly_income <= 0 ->
   calculate_debt_to_income_ratio monthly_debt monthly_income = Ok None) /\
  (0 < monthly_income ->
   calculate_debt_to_income_ratio monthly_debt monthly_income
   = Ok (Some (monthly_debt / monthly_income))) /\
  calculate_debt_to_income_ratio monthly_debt 0 = Ok None.
Proof.
  unfold calculate_debt_to_income_ratio. repeat split.
  - intros H. apply py_le_true in H. now rewrite H.
  - intros H. assert (E : py_le monthly_income 0 = false) by now apply py_le_false.
    rewrite E, py_div_ok; [reflexivity|].
    intros Hz. rewrite Hz in H. now apply Qlt_irrefl in H.
Qed.

Lemma debt_to_income_ratio_spec_witness :
  calculate_debt_to_income_ratio 500 (-3) = Ok None /\
  calculate_debt_to_income_ratio 500 2000 = Ok (Some (500 / 2000)).
Proof.
  split.
  - apply (proj1 (debt_to_income_ratio_spec 500 (-3))).
    unfold Qle; simpl; lia.
  - apply (proj1 (proj2 (debt_to_income_ratio_spec 500 2000))).
    unfold Qlt; simpl; lia.
Defined.

(** ** Portfolio metrics *)

(** C9: a falsy holdings argument ([None] or the empty list) yields the
    all-zero result with an empty breakdown, whatever the market data
    provider does; the result is never an error. *)
Theorem portfolio_metrics_no_holdings
  (ticker_history : string -> period -> pyresult (list PriceBar))
  (holdings : option (list PortfolioHolding)) :
  holdings = None \/ holdings = Some [] ->
  calculate_portfolio_metrics ticker_history holdings
  = Analysis {| pm_total_value := 0;
                pm_total_cost := 0;
                pm_total_gain_loss := 0;
                pm_total_gain_loss_pct := 0;
                pm_holdings_data := [] |}.
Proof. intros [-> | ->]; reflexivity. Qed.

Lemma portfolio_metrics_no_holdings_witness :
  calculate_portfolio_metrics (fun _ _ => Raise GatewayError) (Some [])
  = Analysis {| pm_total_value := 0;
                pm_total_cost := 0;
                pm_total_gain_loss := 0;
                pm_total_gain_loss_pct := 0;
                pm_holdings_data := [] |}.
Proof.
  apply (portfolio_metrics_no_holdings (fun _ _ => Raise GatewayError) (Some [])).
  right. reflexivity.
Defined.

(** ** Retirement readiness *)

(** C5: whenever the analysis does not end in the error result,
    [sustainable_annual_income] is 4% of [projected_savings], [on_track]
    holds exactly when it reaches [desired_retirement_income], and
    [income_gap_percentage] is [income_gap / desired * 100] for a positive
    desired income and 0 for a desired income of 0. *)
Theorem retirement_readiness_spec
  (current_age retirement_age life_expectancy : Z)
  (current_savings monthly_contribution expected_return desired : Q)
  (r : RetirementAnalysis) :
  analyze_retirement_readiness current_age retirement_age life_expectancy
    current_savings monthly_contribution expected_return desired = Analysis r ->
  ra_sustainable_annual_income r = ra_projected_savings r * (4 # 100) /\
  (ra_on_track r = true <-> desired <= ra_sustainable_annual_income r) /\
  ra_income_gap r = desired - ra_sustainable_annual_income r /\
  (0 < desired -> ra_income_gap_percentage r = ra_income_gap r / desired * 100) /\
  (desired == 0 -> ra_income_gap_percentage r = 0).
Proof.
  unfold analyze_retirement_readiness, try_except. intros H.
  ok_binds H. injection H as <-. cbn.
  split; [reflexivity|]. split; [apply py_ge_true|]. split; [reflexivity|].
  split.
  - intros Hd. apply py_gt_true in Hd. rewrite Hd in E1.
    destruct (py_div _ desired) as [q|] eqn:Eq; [|discriminate E1].
    injection E1 as <-. apply py_div_inv in Eq as [_ ->]. reflexivity.
  - intros Hd. assert (Hf : py_gt desired 0 = false).
    { apply py_gt_false. rewrite Hd. apply Qle_refl. }
    rewrite Hf in E1. now injection E1 as <-.
Qed.

Lemma retirement_readiness_spec_witness :
  exists r,
    analyze_retirement_readiness 30 65 85 100000 500 (7 # 100) 40000 = Analysis r /\
    (ra_on_track r = true <-> 40000 <= ra_sustainable_annual_income r).
Proof.
  eexists. split; [vm_compute; reflexivity|].
  refine (proj1 (proj2
    (retirement_readiness_spec 30 65 85 100000 500 (7 # 100) 40000 _ _))).
  vm_compute; reflexivity.
Defined.

(** ** Investment growth: simulation against closed form *)

Section Growth.

Variables monthly_rate monthly_contribution : Q.

Local Notation "'step'" := (growth_month monthly_rate monthly_contribution).

Lemma inject_Z_succ (k : nat) :
  inject_Z (Z.of_nat (S k)) == inject_Z (Z.of_nat k) + 1.
Proof. rewrite Nat2Z.inj_succ. unfold Z.succ. now rewrite inject_Z_plus. Qed.

Lemma Qpower_succ_nat (g : Q) (k : nat) :
  g ^ Z.of_nat (S k) == g ^ Z.of_nat k * g.
Proof.
  rewrite Nat2Z.inj_succ. unfold Z.succ.
  rewrite Qpower_plus' by lia. now rewrite Qpower_1_r.
Qed.

(** After [k] months the value [V] satisfies
    [V * m = v * m * (1+m)^k + c * ((1+m)^k - 1)]. *)
Lemma growth_months_value (v t : Q) (k : nat) :
  fst (Nat.iter k step (v, t)) * monthly_rate
  == v * monthly_rate * (1 + monthly_rate) ^ Z.of_nat k
     + monthly_contribution * ((1 + monthly_rate) ^ Z.of_nat k - 1).
Proof using Type.
  induction k as [|k IH].
  - simpl. ring.
  - rewrite Qpower_succ_nat. simpl Nat.iter.
    destruct (Nat.iter k step (v, t)) as [v' t']. simpl in *.
    assert (Hs : (v' * (1 + monthly_rate) + monthly_contribution) * monthly_rate
                 == v' * monthly_rate * (1 + monthly_rate)
                    + monthly_contribution * monthly_rate) by ring.
    rewrite Hs, IH. ring.
Qed.

Lemma growth_months_value_zero_rate (v t : Q) (k : nat) :
  monthly_rate == 0 ->
  fst (Nat.iter k step (v, t)) == v + monthly_contribution * inject_Z (Z.of_nat k).
Proof using Type.
  intros Hm. induction k as [|k IH].
  - simpl. ring.
  - rewrite inject_Z_succ. simpl Nat.iter.
    destruct (Nat.iter k step (v, t)) as [v' t']. simpl in *.
    rewrite IH, Hm. ring.
Qed.

(** The state of the year loop after [n] years is the month step iterated
    [12 * n] times, and the point appended last records that value. *)
Lemma growth_years_state (v : Q) (n : nat) :
  let data0 := [ {| ip_year := 0; ip_value := v;
                    ip_contributions := v; ip_earnings := 0 |} ] in
  exists data p,
    fold_left (growth_year monthly_rate monthly_contribution)
              (py_range 1 (Z.of_nat n + 1)) (v, v, data0)
    = (fst (Nat.iter (12 * n) step (v, v)), snd (Nat.iter (12 * n) step (v, v)), data)
    /\ length data = S n
    /\ nth_error data n = Some p
    /\ ip_year p = Z.of_nat n
    /\ ip_value p = fst (Nat.iter (12 * n) step (v, v)).
Proof using Type.
  intros data0. induction n as [|n (data & p & Hf & Hlen & _)].
  - exists data0, {| ip_year := 0; ip_value := v;
                     ip_contributions := v; ip_earnings := 0 |}.
    repeat split.
  - assert (Hr : py_range 1 (Z.of_nat (S n) + 1)
                 = py_range 1 (Z.of_nat n + 1) ++ [Z.of_nat (S n)]).
    { unfold py_range.
      replace (Z.to_nat (Z.of_nat (S n) + 1 - 1)) with (S n) by lia.
      replace (Z.to_nat (Z.of_nat n + 1 - 1)) with n by lia.
      rewrite seq_S, map_app. simpl. do 2 f_equal. lia. }
    rewrite Hr, fold_left_app, Hf. cbn [fold_left].
    replace (12 * S n)%nat with (12 + 12 * n)%nat by lia.
    rewrite Nat.iter_add.
    destruct (Nat.iter 12 step (Nat.iter (12 * n) step (v, v))) as [v' t'] eqn:E.
    unfold growth_year.
    rewrite <- (surjective_pairing (Nat.iter (12 * n) step (v, v))).
    rewrite E.
    eexists _, _. split; [reflexivity|].
    split; [rewrite length_app; simpl; lia|].
    split; [rewrite nth_error_app2 by lia; rewrite Hlen, Nat.sub_diag; reflexivity|].
    split; reflexivity.
Qed.

End Growth.

Lemma div_12 (r : Q) : r / 12 == r * (1 # 12).
Proof. reflexivity. Qed.

Lemma monthly_rate_nonneg (r : Q) : 0 <= r -> 0 <= r / 12.
Proof. intros H. rewrite div_12. lra. Qed.

Lemma Qpower_one_plus_zero (m : Q) (z : Z) : m == 0 -> (1 + m) ^ z == 1.
Proof. intros ->. rewrite Qplus_0_r. apply Qpower_1. Qed.

(** In exact arithmetic, for a term of [N >= 0] whole years and a rate
    [r >= 0], the point of year [N] in the simulated sequence carries the
    [final_amount] of the closed form: the two formulas are the same
    function of real numbers.  On binary64 floats they are not, see
    [Binary64Facts]. *)
Lemma growth_closed_form_exact
  (initial_investment monthly_contribution : Q) (N : Z) (r : Q) :
  (0 <= N)%Z -> 0 <= r ->
  exists p final_amount total_contribution total_earnings,
    nth_error (create_investment_growth_chart initial_investment monthly_contribution N r)
              (Z.to_nat N) = Some p /\
    ip_year p = N /\
    calculate_investment_returns initial_investment monthly_contribution N r
    = Ok (final_amount, total_contribution, total_earnings) /\
    ip_value p == final_amount.
Proof.
  intros HN Hr.
  assert (HNn : N = Z.of_nat (Z.to_nat N)) by lia.
  revert HNn. generalize (Z.to_nat N). intros n ->. clear HN.
  pose proof (monthly_rate_nonneg r Hr) as Hm.
  destruct (growth_years_state (r / 12) monthly_contribution initial_investment n)
    as (data & p & Hf & _ & Hn & Hy & Hv).
  unfold create_investment_growth_chart. rewrite Hf. cbn [snd].
  exists p. unfold calculate_investment_returns.
  revert Hm Hv. generalize (r / 12). intros m Hm Hv.
  rewrite py_pow_ok by lra. cbn [pybind].
  replace (Z.of_nat n * 12)%Z with (Z.of_nat (12 * n)) by lia.
  destruct (py_gt m 0) eqn:Hgt.
  - apply py_gt_true in Hgt.
    rewrite py_div_ok by lra. cbn [pybind].
    eexists _, _, _. repeat split; [exact Hn | exact Hy |].
    rewrite Hv. apply (Qmult_inj_r _ _ m); [lra|].
    rewrite growth_months_value. field. lra.
  - apply py_gt_false in Hgt. assert (Hz : m == 0) by lra.
    cbn [pybind].
    eexists _, _, _. repeat split; [exact Hn | exact Hy |].
    rewrite Hv, growth_months_value_zero_rate by exact Hz.
    rewrite Qpower_one_plus_zero by exact Hz. ring.
Qed.

(** The same at a zero rate, on a concrete input. *)
Example growth_chart_zero_rate_year_3 :
  exists p final_amount tc te,
    nth_error (create_investment_growth_chart 1000 100 3 0) 3 = Some p /\
    calculate_investment_returns 1000 100 3 0 = Ok (final_amount, tc, te) /\
    Qred (ip_value p) = 4600 /\ Qred final_amount = 4600.
Proof. eexists _, _, _, _. repeat split; vm_compute; reflexivity. Qed.

(** ** Amortization schedule *)

Lemma py_range_snoc (n : nat) :
  py_range 1 (Z.of_nat (S n) + 1) = py_range 1 (Z.of_nat n + 1) ++ [Z.of_nat (S n)].
Proof.
  unfold py_range.
  replace (Z.to_nat (Z.of_nat (S n) + 1 - 1)) with (S n) by lia.
  replace (Z.to_nat (Z.of_nat n + 1 - 1)) with n by lia.
  rewrite seq_S, map_app. simpl. do 2 f_equal. lia.
Qed.

Lemma sum_principal_snoc (rows : list AmortizationRow) (row : AmortizationRow) :
  sum_principal (rows ++ [row]) == sum_principal rows + ar_principal row.
Proof.
  induction rows as [|r rows IH]; simpl.
  - ring.
  - rewrite IH. ring.
Qed.

Lemma py_max_0_nonneg (x : Q) : 0 <= py_max 0 x.
Proof. apply Q.le_max_l. Qed.

Section Amortization.

Variables monthly_payment monthly_rate principal : Q.

Local Notation "'balance' k" :=
  (Nat.iter k (balance_step monthly_payment monthly_rate) principal) (at level 10).

(** What the schedule loop has built after [n] months. *)
Lemma amortization_state (n : nat) :
  exists rows,
    fold_left (amortization_month monthly_payment monthly_rate)
              (py_range 1 (Z.of_nat n + 1)) (principal, [])
    = (balance n, rows)
    /\ length rows = n
    /\ sum_principal rows == principal - balance n
    /\ Forall (fun row => 0 <= ar_remaining_balance row) rows
    /\ (forall k, n = S k ->
        exists final, last rows = Some final
                      /\ ar_remaining_balance final = py_max 0 (balance n)).
Proof using Type.
  induction n as [|n (rows & Hf & Hlen & Hsum & Hpos & _)].
  - exists []. repeat split; try constructor; simpl; try ring. discriminate.
  - rewrite py_range_snoc, fold_left_app, Hf. cbn [fold_left amortization_month].
    eexists. split; [reflexivity|].
    split; [rewrite length_app; simpl; lia|].
    split; [|split].
    + rewrite sum_principal_snoc, Hsum. cbn [ar_principal]. simpl Nat.iter.
      set (b := balance n). unfold balance_step. ring.
    + apply Forall_app. split; [exact Hpos|].
      constructor; [apply py_max_0_nonneg | constructor].
    + intros k _. eexists. split; [apply last_snoc | reflexivity].
Qed.

Lemma balance_closed_form (k : nat) :
  balance k * monthly_rate
  == principal * monthly_rate * (1 + monthly_rate) ^ Z.of_nat k
     - monthly_payment * ((1 + monthly_rate) ^ Z.of_nat k - 1).
Proof using Type.
  induction k as [|k IH].
  - simpl. ring.
  - rewrite Qpower_succ_nat. simpl Nat.iter. unfold balance_step at 1.
    set (b := balance k) in *.
    assert (Hs : (b - (monthly_payment - b * monthly_rate)) * monthly_rate
                 == b * monthly_rate * (1 + monthly_rate)
                    - monthly_payment * monthly_rate) by ring.
    rewrite Hs, IH. ring.
Qed.

Lemma balance_zero_rate (k : nat) :
  monthly_rate == 0 ->
  balance k == principal - monthly_payment * inject_Z (Z.of_nat k).
Proof using Type.
  intros Hm. induction k as [|k IH].
  - simpl. ring.
  - rewrite inject_Z_succ. simpl Nat.iter. unfold balance_step at 1.
    rewrite IH, Hm. ring.
Qed.

End Amortization.

(** The payment for a non-negative rate and a positive term: the call
    succeeds, and the payment satisfies the annuity equation. *)
Lemma loan_payment_annuity (principal annual_rate : Q) (years : Z) :
  0 <= annual_rate -> (0 < years)%Z ->
  exists payment,
    calculate_loan_payment principal annual_rate years = Ok payment /\
    (annual_rate / 12 == 0 ->
     payment * inject_Z (years * 12) == principal) /\
    (0 < annual_rate / 12 ->
     payment * ((1 + annual_rate / 12) ^ (years * 12) - 1)
     == principal * (annual_rate / 12 * (1 + annual_rate / 12) ^ (years * 12))).
Proof.
  intros Hr Hy. pose proof (monthly_rate_nonneg _ Hr) as Hm.
  unfold calculate_loan_payment. revert Hm. generalize (annual_rate / 12).
  intros m Hm.
  assert (Hn : 0 < inject_Z (years * 12)).
  { rewrite <- (Zlt_Qlt 0). lia. }
  destruct (Qeq_bool m 0) eqn:E.
  - apply Qeq_bool_iff in E. rewrite py_div_ok by lra.
    eexists. split; [reflexivity|]. split.
    + intros _. field. lra.
    + intros H. lra.
  - apply Qeq_bool_false in E. assert (Hpos : 0 < m) by lra.
    assert (Hg : 1 < (1 + m) ^ (years * 12)).
    { apply Qpower_1_lt; [lra | lia]. }
    rewrite py_pow_ok by lra. cbn [pybind].
    rewrite py_div_ok by lra.
    eexists. split; [reflexivity|]. split.
    + intros H. contradiction.
    + intros _. field. lra.
Qed.

(** In exact arithmetic, for a rate [>= 0] and a term of [years > 0], the
    schedule has [years * 12] rows, the last row's stored balance is 0, the
    principal column sums to the principal, and every stored balance is
    [>= 0].  On binary64 floats the payment can fail to be computed, see
    [Binary64Facts]. *)
Lemma amortization_schedule_exact (principal annual_rate : Q) (years : Z) :
  0 <= annual_rate -> (0 < years)%Z ->
  exists rows final,
    generate_amortization_schedule principal annual_rate years = Ok rows /\
    length rows = Z.to_nat (years * 12) /\
    last rows = Some final /\
    ar_remaining_balance final == 0 /\
    sum_principal rows == principal /\
    Forall (fun row => 0 <= ar_remaining_balance row) rows.
Proof.
  intros Hr Hy.
  destruct (loan_payment_annuity principal annual_rate years Hr Hy)
    as (payment & Hpay & Hzero & Hpos).
  pose proof (monthly_rate_nonneg _ Hr) as Hm.
  unfold generate_amortization_schedule. rewrite Hpay. cbn [pybind].
  revert Hzero Hpos Hm. generalize (annual_rate / 12). intros m Hzero Hpos Hm.
  assert (Hn : exists k, Z.to_nat (years * 12) = S k).
  { exists (Z.to_nat (years * 12) - 1)%nat. lia. }
  destruct Hn as [k Hk].
  assert (HZ : (years * 12)%Z = Z.of_nat (S k)) by lia.
  rewrite HZ in *. rewrite Nat2Z.id.
  destruct (amortization_state payment m principal (S k))
    as (rows & Hf & Hlen & Hsum & Hnonneg & Hlast).
  destruct (Hlast k eq_refl) as (final & Hfinal & Hbal).
  rewrite Hf. cbn [snd].
  assert (HB : Nat.iter (S k) (balance_step payment m) principal == 0).
  { destruct (Qlt_le_dec 0 m) as [Hlt | Hle].
    - apply (Qmult_inj_r _ _ m); [lra|].
      rewrite balance_closed_form, (Hpos Hlt). ring.
    - assert (Hz : m == 0) by lra.
      rewrite balance_zero_rate by exact Hz.
      rewrite (Hzero Hz). ring. }
  exists rows, final. repeat split; try assumption.
  - rewrite Hbal. unfold py_max. rewrite Q.max_l; [reflexivity|].
    rewrite HB. apply Qle_refl.
  - rewrite Hsum, HB. ring.
Qed.

(** ** Mortgage affordability *)

Lemma py_pow_inv b e g : py_pow b e = Ok g -> g = b ^ e.
Proof.
  unfold py_pow. destruct ((e <? 0)%Z && Qeq_bool b 0); [discriminate|].
  now intros [= <-].
Qed.

Lemma py_for_ok {S A : Type} (body : S -> A -> pyresult S) (pure : S -> A -> S)
  (items : list A) :
  (forall s x s', In x items -> body s x = Ok s' -> s' = pure s x) ->
  forall s s', py_for body items s = Ok s' -> s' = fold_left pure items s.
Proof.
  induction items as [|x items IH]; intros Hb s s' H; simpl in *.
  - now injection H as <-.
  - destruct (body s x) as [s1|] eqn:E; [|discriminate H]. cbn [pybind] in H.
    rewrite <- (Hb s x s1) by (apply in_eq || assumption).
    apply IH; [|assumption]. intros s0 y s0' Hy. apply Hb. now apply in_cons.
Qed.

Section MortgageLoop.

Variables max_housing_payment down_payment monthly_rate : Q.
Variable total_payments : Z.
Variables property_tax_rate insurance pmi_rate : Q.

Local Notation "'body'" :=
  (mortgage_price_point max_housing_payment down_payment monthly_rate total_payments
     property_tax_rate insurance pmi_rate).
Local Notation "'point'" :=
  (price_point_at max_housing_payment down_payment monthly_rate total_payments
     property_tax_rate insurance pmi_rate).
Local Notation "'kept'" := (has_loan down_payment).
Local Notation "'step'" :=
  (sweep_step max_housing_payment down_payment monthly_rate total_payments
     property_tax_rate insurance pmi_rate).

Lemma mortgage_price_point_ok st price_multiple st' :
  body st price_multiple = Ok st' -> st' = step st price_multiple.
Proof using Type.
  destruct st as [price_ranges max_price].
  unfold mortgage_price_point, sweep_step, has_loan.
  destruct (py_le _ 0) eqn:Hloan; cbn [negb].
  - now intros [= <-].
  - intros H.
    destruct (py_div down_payment _) as [ratio|] eqn:Eratio; [|discriminate H].
    cbn [pybind] in H. apply py_div_inv in Eratio as [_ ->].
    assert (Hm : forall mm,
      (if Qeq_bool monthly_rate 0
       then py_div (inject_Z (price_multiple * 50000) - down_payment)
                   (inject_Z total_payments)
       else let* g := py_pow (1 + monthly_rate) total_payments in
            let* g' := py_pow (1 + monthly_rate) total_payments in
            py_div ((inject_Z (price_multiple * 50000) - down_payment)
                    * (monthly_rate * g)) (g' - 1)) = Ok mm ->
      mm = mortgage_at down_payment monthly_rate total_payments
             (price_multiple * 50000)).
    { intros mm. unfold mortgage_at. destruct (Qeq_bool monthly_rate 0).
      - intros E. now apply py_div_inv in E as [_ ->].
      - destruct (py_pow _ _) as [g|] eqn:Eg; [|discriminate].
        cbn [pybind]. apply py_pow_inv in Eg as ->.
        intros E. now apply py_div_inv in E as [_ ->]. }
    match type of H with
    | pybind ?m _ = _ => destruct m as [mm|] eqn:Emm; [|discriminate H]
    end.
    cbn [pybind] in H. pose proof (Hm mm eq_refl) as ->.
    now injection H as <-.
Qed.

Local Notation "'points'" :=
  (sweep_points max_housing_payment down_payment monthly_rate total_payments
     property_tax_rate insurance pmi_rate).

Lemma sweep_fold items price_ranges max_price :
  fold_left step items (price_ranges, max_price)
  = (price_ranges ++ points items, last_affordable max_price (points items)).
Proof using Type.
  revert price_ranges max_price.
  induction items as [|x items IH]; intros price_ranges max_price.
  - unfold sweep_points. simpl. now rewrite app_nil_r.
  - cbn [fold_left]. unfold sweep_step at 2, sweep_points. cbn [List.filter fst snd].
    destruct (kept x); [|apply IH].
    rewrite IH. unfold sweep_points. cbn [map last_affordable fold_left].
    now rewrite <- app_assoc.
Qed.

(** Whenever the loop ends without an exception, its state is the list of
    computed points and the price of the last affordable one. *)
Lemma mortgage_loop_ok items st' :
  py_for body items ([], 0%Z) = Ok st' ->
  st' = (points items, last_affordable 0 (points items)).
Proof using Type.
  intros H. apply (py_for_ok _ step) in H.
  - now rewrite sweep_fold in H.
  - intros s x s' _. apply mortgage_price_point_ok.
Qed.

Lemma points_flag items :
  Forall (fun p => pr_affordable p = py_le (pr_monthly_payment p) max_housing_payment)
         (points items).
Proof using Type.
  unfold sweep_points. apply Forall_map, Forall_forall. reflexivity.
Qed.

Lemma points_price_sorted items :
  StronglySorted Z.lt items ->
  StronglySorted (fun p q => (pr_home_price p < pr_home_price q)%Z) (points items).
Proof using Type.
  unfold sweep_points. induction 1 as [|x items Hs IH Hx]; cbn [List.filter map].
  - constructor.
  - destruct (kept x); [|exact IH]. cbn [map]. constructor; [exact IH|].
    apply Forall_map, List.Forall_forall. intros y Hy.
    apply filter_In in Hy as [Hy _].
    rewrite List.Forall_forall in Hx. specialize (Hx y Hy). cbn. lia.
Qed.

End MortgageLoop.

(** In a list sorted by price, the price of the last affordable point is
    the highest affordable price; with no affordable point it is the
    starting value. *)
Lemma last_affordable_highest (pts : list PriceRange) :
  StronglySorted (fun p q => (pr_home_price p < pr_home_price q)%Z) pts ->
  forall max_price0,
  (exists p, In p pts /\ pr_affordable p = true
             /\ pr_home_price p = last_affordable max_price0 pts
             /\ forall q, In q pts -> pr_affordable q = true ->
                          (pr_home_price q <= pr_home_price p)%Z)
  \/ (last_affordable max_price0 pts = max_price0
      /\ forall q, In q pts -> pr_affordable q = false).
Proof.
  induction 1 as [|p pts Hs IH Hp]; intros max_price0.
  - right. split; [reflexivity|]. intros q [].
  - unfold last_affordable. cbn [fold_left]. fold (last_affordable).
    rewrite List.Forall_forall in Hp.
    destruct (IH (if pr_affordable p then pr_home_price p else max_price0))
      as [(q & Hq & Haff & Hprice & Hmax) | [Hlast Hnone]].
    + left. exists q. split; [now right|]. split; [exact Haff|].
      split; [exact Hprice|]. intros q' [<- | Hq'] Hq'aff.
      * specialize (Hp q Hq). cbn in Hp. lia.
      * now apply Hmax.
    + unfold last_affordable in Hlast. rewrite Hlast.
      destruct (pr_affordable p) eqn:Ep.
      * left. exists p. split; [now left|]. split; [exact Ep|].
        split; [reflexivity|]. intros q [<- | Hq] Hqaff; [lia|].
        rewrite (Hnone q Hq) in Hqaff. discriminate.
      * right. split; [reflexivity|]. intros q [<- | Hq]; [exact Ep | now apply Hnone].
Qed.

Lemma py_range_1_16_sorted : StronglySorted Z.lt (py_range 1 16).
Proof.
  change (py_range 1 16) with [1; 2; 3; 4; 5; 6; 7; 8; 9; 10; 11; 12; 13; 14; 15]%Z.
  repeat (constructor; [|repeat (constructor; [lia|]); constructor]). constructor.
Qed.

(** What a successful analysis returns, in terms of the computed points. *)
Lemma mortgage_affordability_result
  (income debt down_payment interest_rate : Q) (term_years : Z)
  (property_tax_rate insurance pmi_rate : Q) (res : MortgageAffordability) :
  analyze_mortgage_affordability income debt down_payment interest_rate term_years
    property_tax_rate insurance pmi_rate = Analysis res ->
  let max_housing_payment :=
    py_min (income / 12 * (28 # 100)) (income / 12 * (36 # 100) - debt) in
  let pts :=
    sweep_points max_housing_payment down_payment (interest_rate / 12)
      (term_years * 12) property_tax_rate insurance pmi_rate (py_range 1 16) in
  ma_max_housing_payment res = max_housing_payment /\
  ma_price_ranges res = pts /\
  ma_max_affordable_price res = last_affordable 0 pts.
Proof.
  unfold analyze_mortgage_affordability, try_except. intros H.
  destruct (py_for _ _ _) as [[price_ranges max_price]|] eqn:E;
    cbn [pybind] in H; [|discriminate H].
  apply mortgage_loop_ok in E. injection E as -> ->.
  injection H as <-. repeat split.
Qed.

(** C2: whenever the analysis does not end in the error result (for a
    positive income, and indeed for any), [max_housing_payment] is the
    smaller of 28% of the monthly income and 36% of it less the debt; every
    price point is flagged affordable exactly when its monthly payment is
    at most [max_housing_payment]; and [max_affordable_price] is the
    highest price among the affordable points, or 0 when there is none. *)
Theorem mortgage_affordability_spec
  (income debt down_payment interest_rate : Q) (term_years : Z)
  (property_tax_rate insurance pmi_rate : Q) (res : MortgageAffordability) :
  0 < income ->
  analyze_mortgage_affordability income debt down_payment interest_rate term_years
    property_tax_rate insurance pmi_rate = Analysis res ->
  ma_max_housing_payment res
  == Qmin ((28 # 100) * (income / 12)) ((36 # 100) * (income / 12) - debt) /\
  Forall (fun p => pr_affordable p = true
                   <-> pr_monthly_payment p <= ma_max_housing_payment res)
         (ma_price_ranges res) /\
  ((exists p, In p (ma_price_ranges res) /\ pr_affordable p = true
              /\ pr_home_price p = ma_max_affordable_price res
              /\ forall q, In q (ma_price_ranges res) -> pr_affordable q = true ->
                           (pr_home_price q <= pr_home_price p)%Z)
   \/ (ma_max_affordable_price res = 0%Z
       /\ forall q, In q (ma_price_ranges res) -> pr_affordable q = false)).
Proof.
  intros _ H. apply mortgage_affordability_result in H as (Hmax & Hpts & Hprice).
  rewrite Hmax, Hpts, Hprice. split; [|split].
  - unfold py_min. apply Q.min_compat; ring.
  - eapply Forall_impl; [apply points_flag|].
    intros p Hp. cbn beta in Hp. rewrite Hp. apply py_le_true.
  - apply last_affordable_highest, points_price_sorted, py_range_1_16_sorted.
Qed.

Lemma mortgage_affordability_spec_witness :
  0 < 1200000 /\
  exists res,
    analyze_mortgage_affordability 1200000 0 200000 (8 # 100) 30
      default_property_tax_rate default_insurance default_pmi_rate = Analysis res /\
    Forall (fun p => pr_affordable p = true
                     <-> pr_monthly_payment p <= ma_max_housing_payment res)
           (ma_price_ranges res).
Proof.
  assert (Hi : 0 < 1200000) by (unfold Qlt; simpl; lia).
  split; [exact Hi|].
  eexists. split; [vm_compute; reflexivity|].
  refine (proj1 (proj2 (mortgage_affordability_spec 1200000 0 200000 (8 # 100) 30
    default_property_tax_rate default_insurance default_pmi_rate _ Hi _))).
  vm_compute; reflexivity.
Defined.

(** *** Monotonicity of the monthly payment *)

Lemma div_12_mono (a b : Q) : a <= b -> a / 12 <= b / 12.
Proof. intros H. rewrite !div_12. lra. Qed.

Lemma div_12_nonneg (a : Q) : 0 <= a -> 0 <= a / 12.
Proof. intros H. rewrite div_12. lra. Qed.

Lemma inject_Z_pos (z : Z) : (0 < z)%Z -> 0 < inject_Z z.
Proof. intros H. now rewrite <- (Zlt_Qlt 0). Qed.

Lemma inject_Z_le (x y : Z) : (x <= y)%Z -> inject_Z x <= inject_Z y.
Proof. intros H. now rewrite <- Zle_Qle. Qed.

Lemma StronglySorted_weaken {A : Type} (R R' : A -> A -> Prop) (P : A -> Prop)
  (l : list A) :
  (forall x y, P x -> P y -> R x y -> R' x y) ->
  Forall P l -> StronglySorted R l -> StronglySorted R' l.
Proof.
  intros HR HP Hs. induction Hs as [|x l Hs IH Hx].
  - constructor.
  - apply Forall_cons_1 in HP as [Px Pl]. constructor; [now apply IH|].
    rewrite List.Forall_forall in *. intros y Hy. apply HR; auto.
Qed.

Section MortgageMonotone.

Variables max_housing_payment down_payment monthly_rate : Q.
Variable total_payments : Z.
Variables property_tax_rate insurance pmi_rate : Q.

Hypothesis down_payment_nonneg : 0 <= down_payment.
Hypothesis monthly_rate_nonneg' : 0 <= monthly_rate.
Hypothesis total_payments_pos : (0 < total_payments)%Z.
Hypothesis property_tax_rate_nonneg : 0 <= property_tax_rate.
Hypothesis pmi_rate_nonneg : 0 <= pmi_rate.

Local Notation "'body'" :=
  (mortgage_price_point max_housing_payment down_payment monthly_rate total_payments
     property_tax_rate insurance pmi_rate).
Local Notation "'step'" :=
  (sweep_step max_housing_payment down_payment monthly_rate total_payments
     property_tax_rate insurance pmi_rate).
Local Notation "'points'" :=
  (sweep_points max_housing_payment down_payment monthly_rate total_payments
     property_tax_rate insurance pmi_rate).
Local Notation "'mortgage'" := (mortgage_at down_payment monthly_rate total_payments).
Local Notation "'pmi'" := (pmi_at down_payment pmi_rate).
Local Notation "'total'" :=
  (monthly_total_at down_payment monthly_rate total_payments
     property_tax_rate insurance pmi_rate).

(** With a positive rate the growth factor exceeds 1, so the annuity
    formula divides by a non-zero number. *)
Lemma growth_factor_gt_1 :
  ~ monthly_rate == 0 -> 1 < (1 + monthly_rate) ^ total_payments.
Proof using monthly_rate_nonneg' total_payments_pos.
  intros H. apply Qpower_1_lt; [lra | exact total_payments_pos].
Qed.

(** The mortgage payment is the loan amount times a non-negative factor. *)
Lemma mortgage_factor :
  exists F, 0 <= F /\ forall h, mortgage h == (inject_Z h - down_payment) * F.
Proof using monthly_rate_nonneg' total_payments_pos.
  pose proof (inject_Z_pos _ total_payments_pos) as Hn.
  unfold mortgage_at. destruct (Qeq_bool monthly_rate 0) eqn:Em.
  - exists (/ inject_Z total_payments). split.
    + apply Qlt_le_weak, Qinv_lt_0_compat, Hn.
    + intros h. reflexivity.
  - apply Qeq_bool_false in Em. pose proof (growth_factor_gt_1 Em) as Hg.
    exists (monthly_rate * (1 + monthly_rate) ^ total_payments
            / ((1 + monthly_rate) ^ total_payments - 1)). split.
    + apply Qle_shift_div_l; [lra|]. rewrite Qmult_0_l.
      apply Qmult_le_0_compat; lra.
    + intros h. unfold Qdiv. ring.
Qed.

Lemma pmi_required_iff (h : Z) :
  (0 < h)%Z ->
  py_lt (down_payment / inject_Z h) (2 # 10) = true
  <-> down_payment < (2 # 10) * inject_Z h.
Proof using Type.
  intros Hh. apply inject_Z_pos in Hh. rewrite py_lt_true.
  rewrite <- (Qmult_lt_r _ _ (inject_Z h)) by exact Hh.
  assert (E : down_payment / inject_Z h * inject_Z h == down_payment) by (field; lra).
  now rewrite E.
Qed.

Lemma pmi_mono (h1 h2 : Z) :
  (0 < h1 <= h2)%Z -> down_payment < inject_Z h1 -> pmi h1 <= pmi h2.
Proof using down_payment_nonneg pmi_rate_nonneg.
  intros [H1 H12] Hloan. pose proof (inject_Z_le _ _ H12) as Hle.
  assert (H2 : (0 < h2)%Z) by lia.
  unfold pmi_at.
  destruct (py_lt (down_payment / inject_Z h1) _) eqn:E1;
    destruct (py_lt (down_payment / inject_Z h2) _) eqn:E2.
  - apply div_12_mono, Qmult_le_compat_r; lra.
  - apply pmi_required_iff in E1; [|exact H1].
    apply not_true_iff_false in E2. exfalso. apply E2.
    apply pmi_required_iff; [exact H2 | lra].
  - apply div_12_nonneg, Qmult_le_0_compat; lra.
  - apply Qle_refl.
Qed.

(** The monthly payment does not decrease with the home price, over the
    prices that have a positive loan amount. *)
Lemma monthly_total_mono (h1 h2 : Z) :
  (0 < h1 <= h2)%Z -> down_payment < inject_Z h1 -> total h1 <= total h2.
Proof using All.
  intros H Hloan. pose proof (pmi_mono h1 h2 H Hloan) as Hpmi.
  destruct H as [H1 H12]. pose proof (inject_Z_le _ _ H12) as Hle.
  destruct mortgage_factor as (F & HF & Hmort).
  unfold monthly_total_at, property_tax_at. rewrite !Hmort.
  assert (Hm : (inject_Z h1 - down_payment) * F <= (inject_Z h2 - down_payment) * F).
  { apply Qmult_le_compat_r; lra. }
  assert (Ht : inject_Z h1 * property_tax_rate / 12
               <= inject_Z h2 * property_tax_rate / 12).
  { apply div_12_mono, Qmult_le_compat_r; lra. }
  lra.
Qed.

End MortgageMonotone.

(** Every computed point carries the payment of its own price, and its
    price is positive and above the down payment. *)
Lemma points_payment
  (max_housing_payment down_payment monthly_rate : Q) (total_payments : Z)
  (property_tax_rate insurance pmi_rate : Q) (items : list Z) :
  Forall (fun x => (1 <= x)%Z) items ->
  Forall (fun p =>
            pr_monthly_payment p
            = monthly_total_at down_payment monthly_rate total_payments
                property_tax_rate insurance pmi_rate (pr_home_price p)
            /\ (0 < pr_home_price p)%Z
            /\ down_payment < inject_Z (pr_home_price p))
         (sweep_points max_housing_payment down_payment monthly_rate total_payments
            property_tax_rate insurance pmi_rate items).
Proof.
  intros Hitems. unfold sweep_points. apply Forall_map, List.Forall_forall.
  intros x Hx. apply filter_In in Hx as [Hx Hkept].
  rewrite List.Forall_forall in Hitems. specialize (Hitems x Hx).
  unfold has_loan in Hkept. apply negb_true_iff, py_le_false in Hkept.
  cbn. repeat split; [lia | lra].
Qed.

Lemma last_affordable_none (pts : list PriceRange) (max_price0 : Z) :
  Forall (fun p => pr_affordable p = false) pts ->
  last_affordable max_price0 pts = max_price0.
Proof.
  unfold last_affordable. induction 1 as [|p pts Hp _ IH]; cbn [fold_left].
  - reflexivity.
  - now rewrite Hp.
Qed.

(** In a list whose payments do not decrease, the affordable points are
    the first [k] ones, and the last affordable price is that of point
    [k - 1]. *)
Lemma affordable_prefix (max_housing_payment : Q) (pts : list PriceRange) :
  StronglySorted (fun p q => pr_monthly_payment p <= pr_monthly_payment q) pts ->
  Forall (fun p => pr_affordable p
                   = py_le (pr_monthly_payment p) max_housing_payment) pts ->
  forall max_price0, exists k,
    (k <= length pts)%nat /\
    (forall i p, nth_error pts i = Some p ->
                 (pr_affordable p = true <-> (i < k)%nat)) /\
    ((k = 0%nat /\ last_affordable max_price0 pts = max_price0) \/
     exists p, (0 < k)%nat /\ nth_error pts (k - 1) = Some p
               /\ last_affordable max_price0 pts = pr_home_price p).
Proof.
  induction 1 as [|p pts Hs IH Hp]; intros Hflag max_price0.
  - exists 0%nat. split; [reflexivity|]. split.
    + intros [|i] q; discriminate.
    + left. split; reflexivity.
  - apply Forall_cons_1 in Hflag as [Hflag_p Hflag].
    rewrite List.Forall_forall in Hp, Hflag.
    destruct (pr_affordable p) eqn:Ep.
    + destruct (IH ltac:(now apply List.Forall_forall) (pr_home_price p))
        as (k & Hk & Hpre & Hlast).
      exists (S k). split; [simpl; lia|]. split.
      * intros [|i] q Hq; cbn in Hq.
        -- injection Hq as <-. split; [lia | intros _; exact Ep].
        -- rewrite (Hpre i q Hq). lia.
      * right. unfold last_affordable. cbn [fold_left]. rewrite Ep.
        fold (last_affordable (pr_home_price p) pts).
        destruct Hlast as [[-> Hlast] | (q & Hk0 & Hq & Hlast)].
        -- exists p. repeat split; [lia | exact Hlast].
        -- exists q. split; [lia|]. split; [|exact Hlast].
           replace (S k - 1)%nat with (S (k - 1)) by lia. exact Hq.
    + assert (Hnone : Forall (fun q => pr_affordable q = false) pts).
      { apply List.Forall_forall. intros q Hq.
        rewrite (Hflag q Hq). apply py_le_false.
        symmetry in Hflag_p. apply py_le_false in Hflag_p.
        specialize (Hp q Hq). cbn in Hp. lra. }
      exists 0%nat. split; [lia|]. split.
      * intros [|i] q Hq; cbn in Hq.
        -- injection Hq as <-. rewrite Ep. split; [discriminate | lia].
        -- apply nth_error_In in Hq. rewrite List.Forall_forall in Hnone.
           rewrite (Hnone q Hq). split; [discriminate | lia].
      * left. split; [reflexivity|].
        unfold last_affordable. cbn [fold_left]. rewrite Ep.
        now apply last_affordable_none.
Qed.

Lemma py_range_1_16_positive : Forall (fun x => (1 <= x)%Z) (py_range 1 16).
Proof.
  change (py_range 1 16) with [1; 2; 3; 4; 5; 6; 7; 8; 9; 10; 11; 12; 13; 14; 15]%Z.
  repeat (constructor; [lia|]). constructor.
Qed.

(** C10: for non-negative down payment, rate, tax rate, insurance and PMI
    rate and a positive term, whenever the analysis does not end in the
    error result: over its price points the monthly payment does not
    decrease with the home price; so the affordable points are exactly the
    first [k] of [price_ranges], and [max_affordable_price] is the price of
    point [k - 1] (0 when [k = 0]). *)
Theorem mortgage_payment_monotone_prefix
  (income debt down_payment interest_rate : Q) (term_years : Z)
  (property_tax_rate insurance pmi_rate : Q) (res : MortgageAffordability) :
  0 <= down_payment -> 0 <= interest_rate -> (0 < term_years)%Z ->
  0 <= property_tax_rate -> 0 <= insurance -> 0 <= pmi_rate ->
  analyze_mortgage_affordability income debt down_payment interest_rate term_years
    property_tax_rate insurance pmi_rate = Analysis res ->
  (forall p q, In p (ma_price_ranges res) -> In q (ma_price_ranges res) ->
               (pr_home_price p <= pr_home_price q)%Z ->
               pr_monthly_payment p <= pr_monthly_payment q) /\
  exists k,
    (k <= length (ma_price_ranges res))%nat /\
    (forall i p, nth_error (ma_price_ranges res) i = Some p ->
                 (pr_affordable p = true <-> (i < k)%nat)) /\
    ((k = 0%nat /\ ma_max_affordable_price res = 0%Z) \/
     exists p, (0 < k)%nat /\ nth_error (ma_price_ranges res) (k - 1) = Some p
               /\ ma_max_affordable_price res = pr_home_price p).
Proof.
  intros Hdp Hrate Hterm Htax Hins Hpmi Hres.
  pose proof (monthly_rate_nonneg _ Hrate) as Hm.
  assert (Hn : (0 < term_years * 12)%Z) by lia.
  apply mortgage_affordability_result in Hres as (_ & Hpts & Hprice).
  rewrite Hpts, Hprice.
  set (mhp := py_min (income / 12 * (28 # 100)) (income / 12 * (36 # 100) - debt)).
  set (pts := sweep_points mhp down_payment (interest_rate / 12) (term_years * 12)
                property_tax_rate insurance pmi_rate (py_range 1 16)).
  pose proof (points_payment mhp down_payment (interest_rate / 12) (term_years * 12)
                property_tax_rate insurance pmi_rate _ py_range_1_16_positive) as Hpay.
  fold pts in Hpay.
  assert (Hmono : forall p q, In p pts -> In q pts ->
            (pr_home_price p <= pr_home_price q)%Z ->
            pr_monthly_payment p <= pr_monthly_payment q).
  { rewrite List.Forall_forall in Hpay. intros p q Hp Hq Hle.
    destruct (Hpay p Hp) as (-> & Hp0 & Hploan).
    destruct (Hpay q Hq) as (-> & _ & _).
    apply monthly_total_mono; auto. }
  assert (Hsorted : StronglySorted
            (fun p q => pr_monthly_payment p <= pr_monthly_payment q) pts).
  { apply (StronglySorted_weaken
             (fun p q => (pr_home_price p < pr_home_price q)%Z) _
             (fun p => In p pts)).
    - intros p q Hp Hq Hlt. apply Hmono; auto. lia.
    - apply List.Forall_forall. auto.
    - apply points_price_sorted, py_range_1_16_sorted. }
  destruct (affordable_prefix mhp pts Hsorted (points_flag _ _ _ _ _ _ _ _) 0%Z)
    as (k & Hk & Hpre & Hlast).
  split; [exact Hmono|]. exists k.
  split; [exact Hk|]. split; [exact Hpre | exact Hlast].
Qed.

Lemma mortgage_payment_monotone_prefix_witness :
  0 <= 20000 /\ 0 <= 0 /\ (0 < 30)%Z /\ 0 <= 1 # 100 /\ 0 <= 100 /\ 0 <= 5 # 1000 /\
  exists res,
    analyze_mortgage_affordability 60000 0 20000 0 30 (1 # 100) 100 (5 # 1000)
    = Analysis res /\
    forall p q, In p (ma_price_ranges res) -> In q (ma_price_ranges res) ->
                (pr_home_price p <= pr_home_price q)%Z ->
                pr_monthly_payment p <= pr_monthly_payment q.
Proof.
  assert (H1 : 0 <= 20000) by (unfold Qle; simpl; lia).
  assert (H2 : 0 <= 0) by (unfold Qle; simpl; lia).
  assert (H3 : (0 < 30)%Z) by lia.
  assert (H4 : 0 <= 1 # 100) by (unfold Qle; simpl; lia).
  assert (H5 : 0 <= 100) by (unfold Qle; simpl; lia).
  assert (H6 : 0 <= 5 # 1000) by (unfold Qle; simpl; lia).
  repeat (split; [assumption|]).
  eexists. split; [vm_compute; reflexivity|].
  refine (proj1 (mortgage_payment_monotone_prefix 60000 0 20000 0 30 (1 # 100) 100
                   (5 # 1000) _ H1 H2 H3 H4 H5 H6 _)).
  vm_compute; reflexivity.
Defined.

(** ** Stock metrics: trailing returns *)

Lemma match_nonempty {A B : Type} (l : list A) (x y : B) :
  l <> [] -> match l with [] => x | _ :: _ => y end = y.
Proof. destruct l; [congruence | reflexivity]. Qed.

Lemma iloc_neg_spec {A : Type} (l : list A) (k : nat) :
  (1 <= k <= length l)%nat ->
  exists x, iloc_neg l k = Ok x /\ nth_error (rev l) (k - 1) = Some x.
Proof.
  intros [Hk Hlen]. unfold iloc_neg.
  rewrite (proj2 (Nat.leb_le _ _) Hlen).
  rewrite nth_error_rev, (proj2 (Nat.ltb_lt _ _)) by lia.
  replace (length l - S (k - 1))%nat with (length l - k)%nat by lia.
  destruct (nth_error l (length l - k)) as [x|] eqn:E.
  - exists x. split; reflexivity.
  - apply nth_error_None in E. lia.
Qed.

(** The guarded [iloc[-k]] branch of the source computes the window return
    of the specification. *)
Lemma window_return_ok (closes : list Q) (current_price : Q) (k : nat) :
  (1 <= k)%nat -> close_from_end closes 1 = Some current_price ->
  (if (k <=? length closes)%nat then
     let* past := iloc_neg closes k in
     Ok (Some (trailing_return current_price past))
   else Ok None)
  = Ok (spec_window_return closes k).
Proof.
  intros Hk Hcur. unfold spec_window_return. rewrite Hcur.
  destruct (k <=? length closes)%nat eqn:E.
  - apply Nat.leb_le in E. rewrite (proj2 (Nat.ltb_ge _ _)) by lia.
    destruct (iloc_neg_spec closes k) as (past & -> & Hpast); [lia|].
    unfold close_from_end. rewrite Hpast. reflexivity.
  - apply Nat.leb_gt in E. now rewrite (proj2 (Nat.ltb_lt _ _)) by lia.
Qed.

Lemma spec_window_return_none (closes : list Q) (k : nat) :
  (1 <= k)%nat ->
  spec_window_return closes k = None <-> (length closes < k)%nat.
Proof.
  intros Hk. unfold spec_window_return.
  destruct (length closes <? k)%nat eqn:E.
  - apply Nat.ltb_lt in E. tauto.
  - apply Nat.ltb_ge in E. unfold close_from_end.
    rewrite !nth_error_rev, !(proj2 (Nat.ltb_lt _ _)) by lia.
    destruct (nth_error closes _) eqn:E1.
    + destruct (nth_error closes (length closes - S (k - 1))) eqn:E2.
      * split; [discriminate | lia].
      * apply nth_error_None in E2. lia.
    + apply nth_error_None in E1. lia.
Qed.

(** C4, as the code has it: for a non-empty history the 1-month and
    3-month returns are the window returns at offsets 21 and 63 (null
    exactly below 21 and 63 rows); the 1-year return is null exactly below
    252 rows and otherwise compares the latest close with the first close
    of the history, not with the close at offset 252. *)
Theorem stock_metrics_returns
  (ticker_info : string -> pyresult StockInfo)
  (ticker_history : string -> period -> pyresult (list PriceBar))
  (ticker : string) (info : StockInfo) (hist : list PriceBar) :
  ticker_info ticker = Ok info ->
  ticker_history ticker Period1y = Ok hist ->
  hist <> [] ->
  let closes := map pb_close hist in
  exists m current_price oldest,
    get_stock_metrics ticker_info ticker_history ticker = Analysis m /\
    close_from_end closes 1 = Some current_price /\
    nth_error closes 0 = Some oldest /\
    sm_current_price m = current_price /\
    sr_1mo (sm_returns m) = spec_window_return closes 21 /\
    sr_3mo (sm_returns m) = spec_window_return closes 63 /\
    (sr_1mo (sm_returns m) = None <-> (length hist < 21)%nat) /\
    (sr_3mo (sm_returns m) = None <-> (length hist < 63)%nat) /\
    (sr_1yr (sm_returns m) = None <-> (length hist < 252)%nat) /\
    ((252 <= length hist)%nat ->
     sr_1yr (sm_returns m) = Some (trailing_return current_price oldest)).
Proof.
  intros Hinfo Hhist Hne closes.
  assert (Hlen : length closes = length hist) by apply length_map.
  assert (Hpos : (1 <= length closes)%nat).
  { rewrite Hlen. destruct hist; [congruence | simpl; lia]. }
  destruct (iloc_neg_spec closes 1) as (current_price & Hcur & Hrev); [lia|].
  destruct (nth_error closes 0) as [oldest|] eqn:Hold;
    [|apply nth_error_None in Hold; lia].
  unfold get_stock_metrics. rewrite Hinfo, Hhist. cbn [pybind].
  rewrite match_nonempty by exact Hne. fold closes.
  rewrite Hcur. cbn [pybind].
  rewrite <- !Hlen.
  rewrite !window_return_ok by (lia || exact Hrev). cbn [pybind].
  unfold iloc. rewrite Hold.
  destruct (252 <=? length closes)%nat eqn:E; cbn [pybind try_except];
    eexists _, current_price, oldest; (split; [reflexivity|]);
    cbn [sm_returns sm_current_price sr_1mo sr_3mo sr_1yr];
    (split; [exact Hrev|]); (split; [reflexivity|]); (split; [reflexivity|]);
    (split; [reflexivity|]); (split; [reflexivity|]);
    (split; [apply spec_window_return_none; lia|]);
    (split; [apply spec_window_return_none; lia|]).
  - apply Nat.leb_le in E. split; [split; [discriminate | lia] | reflexivity].
  - apply Nat.leb_gt in E. split; [split; [lia | reflexivity] | lia].
Qed.

Lemma stock_metrics_returns_witness :
  exists m,
    get_stock_metrics (fun _ => Ok no_info) (fun _ _ => Ok history_253) "ACME"
    = Analysis m /\
    sr_1mo (sm_returns m) = spec_window_return (map pb_close history_253) 21.
Proof.
  destruct (stock_metrics_returns (fun _ => Ok no_info) (fun _ _ => Ok history_253)
              "ACME" no_info history_253 eq_refl eq_refl ltac:(discriminate))
    as (m & current_price & oldest & Hm & _ & _ & _ & H1 & _).
  exists m. split; [exact Hm | exact H1].
Defined.

(** C4 fails as stated for the 1-year window: on a history of 253 rows the
    source compares the latest close, 4, with the first close, 1, and
    returns 300, while the close at offset 252 is 2 and the return against
    it is 100. *)
Lemma stock_metrics_1yr_counterexample :
  exists m a b,
    get_stock_metrics (fun _ => Ok no_info) (fun _ _ => Ok history_253) "ACME"
    = Analysis m /\
    length history_253 = 253%nat /\
    sr_1yr (sm_returns m) = Some (Finite a) /\ a == 300 /\
    spec_window_return (map pb_close history_253) 252 = Some (Finite b) /\ b == 100 /\
    opt_np_eqb (sr_1yr (sm_returns m))
               (spec_window_return (map pb_close history_253) 252) = false.
Proof.
  eexists _, _, _. split; [vm_compute; reflexivity|].
  split; [reflexivity|]. split; [reflexivity|].
  split; [reflexivity|]. split; [vm_compute; reflexivity|].
  split; reflexivity.
Qed.

(** * Further properties of the code *)

(** ** Investment growth: the whole list of points *)

Lemma growth_chart_points (v c : Q) (n : nat) (r : Q) :
  create_investment_growth_chart v c (Z.of_nat n) r
  = {| ip_year := 0; ip_value := v; ip_contributions := v; ip_earnings := 0 |}
    :: map (growth_point (r / 12) c v) (seq 1 n).
Proof.
  unfold create_investment_growth_chart.
  set (p0 := {| ip_year := 0; ip_value := v; ip_contributions := v; ip_earnings := 0 |}).
  assert (H : fold_left (growth_year (r / 12) c) (py_range 1 (Z.of_nat n + 1))
                (v, v, [p0])
              = (fst (growth_state (r / 12) c v (12 * n)),
                 snd (growth_state (r / 12) c v (12 * n)),
                 p0 :: map (growth_point (r / 12) c v) (seq 1 n))).
  { induction n as [|n IH].
    - reflexivity.
    - rewrite py_range_snoc, fold_left_app, IH. cbn [fold_left].
      unfold growth_year.
      rewrite <- (surjective_pairing (growth_state (r / 12) c v (12 * n))).
      replace (Nat.iter 12 (growth_month (r / 12) c)
                 (growth_state (r / 12) c v (12 * n)))
        with (growth_state (r / 12) c v (12 * S n)).
      2:{ unfold growth_state. replace (12 * S n)%nat with (12 + 12 * n)%nat by lia.
          apply Nat.iter_add. }
      rewrite (surjective_pairing (growth_state (r / 12) c v (12 * S n))).
      rewrite seq_S, map_app. cbn [map].
      replace (1 + n)%nat with (S n) by lia. reflexivity. }
  now rewrite H.
Qed.

Lemma growth_state_contributions (m c v : Q) (k : nat) :
  snd (growth_state m c v k) == v + c * inject_Z (Z.of_nat k).
Proof.
  unfold growth_state. induction k as [|k IH].
  - simpl. ring.
  - rewrite inject_Z_succ. simpl Nat.iter.
    destruct (Nat.iter k (growth_month m c) (v, v)) as [v' t']. simpl in *.
    rewrite IH. ring.
Qed.

(** For a rate [>= 0] and a whole number [n >= 0] of years the calculator
    returns the state of the month loop after [12 * n] steps. *)
Lemma investment_returns_state (v c : Q) (n : nat) (r : Q) :
  0 <= r ->
  exists fa tc te,
    calculate_investment_returns v c (Z.of_nat n) r = Ok (fa, tc, te) /\
    fa == fst (growth_state (r / 12) c v (12 * n)) /\
    tc == snd (growth_state (r / 12) c v (12 * n)) /\
    te = fa - tc.
Proof.
  intros Hr. pose proof (monthly_rate_nonneg r Hr) as Hm.
  unfold calculate_investment_returns, growth_state.
  pose proof (growth_months_value (r / 12) c v v (12 * n)) as Hval.
  pose proof (growth_months_value_zero_rate (r / 12) c v v (12 * n)) as Hzero.
  pose proof (growth_state_contributions (r / 12) c v (12 * n)) as Hcon.
  unfold growth_state in Hcon.
  revert Hm Hval Hzero Hcon. generalize (r / 12). intros m Hm Hval Hzero Hcon.
  rewrite py_pow_ok by lra. cbn [pybind].
  replace (Z.of_nat n * 12)%Z with (Z.of_nat (12 * n)) by lia.
  destruct (py_gt m 0) eqn:Hgt.
  - apply py_gt_true in Hgt. rewrite py_div_ok by lra. cbn [pybind].
    eexists _, _, _. split; [reflexivity|]. split; [|split; [|reflexivity]].
    + apply (Qmult_inj_r _ _ m); [lra|]. rewrite Hval. field. lra.
    + rewrite Hcon. reflexivity.
  - apply py_gt_false in Hgt. assert (Hz : m == 0) by lra. cbn [pybind].
    eexists _, _, _. split; [reflexivity|]. split; [|split; [|reflexivity]].
    + rewrite (Hzero Hz), Qpower_one_plus_zero by exact Hz. ring.
    + rewrite Hcon. reflexivity.
Qed.

(** X1: at the two rates the specification names, 0 and 0.07, with a
    non-negative initial investment and contribution and [N >= 0] years,
    whenever the closed-form calculator returns, the point of year [N]
    agrees with it on all three figures: value with [final_amount],
    contributions with [total_contributions], earnings with
    [total_earnings]. *)
Theorem growth_chart_point_matches_returns (v c : Q) (N : Z) (r fa tc te : Q) :
  0 <= v -> 0 <= c -> (0 <= N)%Z -> r == 0 \/ r == 7 # 100 ->
  calculate_investment_returns v c N r = Ok (fa, tc, te) ->
  exists p,
    nth_error (create_investment_growth_chart v c N r) (Z.to_nat N) = Some p /\
    ip_value p == fa /\ ip_contributions p == tc /\ ip_earnings p == te.
Proof.
  intros _ _ HN Hrate Hret.
  assert (Hr : 0 <= r) by (destruct Hrate as [-> | ->]; unfold Qle; simpl; lia).
  assert (HNn : N = Z.of_nat (Z.to_nat N)) by lia.
  revert HNn Hret. generalize (Z.to_nat N). intros n -> Hret. clear HN.
  destruct (investment_returns_state v c n r Hr)
    as (fa' & tc' & te' & Hcalc & Hfa & Htc & ->).
  rewrite Hcalc in Hret. injection Hret as <- <- <-.
  rewrite growth_chart_points.
  destruct n as [|n].
  - eexists. split; [reflexivity|].
    cbn [ip_value ip_contributions ip_earnings].
    unfold growth_state in Hfa, Htc. simpl in Hfa, Htc.
    rewrite Hfa, Htc. repeat split; try reflexivity. ring.
  - exists (growth_point (r / 12) c v (S n)).
    split.
    + cbn [nth_error]. rewrite nth_error_map, nth_error_seq.
      rewrite (proj2 (Nat.ltb_lt _ _)) by lia. reflexivity.
    + cbn [growth_point ip_value ip_contributions ip_earnings].
      rewrite Hfa, Htc. repeat split; reflexivity.
Qed.

Lemma growth_chart_point_matches_returns_witness :
  exists p,
    nth_error (create_investment_growth_chart 1000 100 3 0) (Z.to_nat 3) = Some p /\
    ip_value p == 1000 * (1 + 0 / 12) ^ (3 * 12) + 100 * inject_Z (3 * 12).
Proof.
  assert (Hv : 0 <= 1000) by (unfold Qle; simpl; lia).
  assert (Hc : 0 <= 100) by (unfold Qle; simpl; lia).
  assert (HN : (0 <= 3)%Z) by lia.
  assert (Hr : 0 == 0 \/ 0 == 7 # 100) by (left; reflexivity).
  destruct (growth_chart_point_matches_returns 1000 100 3 0 _ _ _ Hv Hc HN Hr eq_refl)
    as (p & Hp & Hval & _).
  exists p. split; [exact Hp | exact Hval].
Defined.

(** X2: for [N >= 0] years the list has [N + 1] points, the point at index
    [i] is that of year [i], every point's earnings are its value less its
    contributions, and its contributions are the initial investment plus
    [12 * i] monthly contributions. *)
Theorem growth_chart_points_invariant (v c : Q) (N : Z) (r : Q) :
  (0 <= N)%Z ->
  length (create_investment_growth_chart v c N r) = S (Z.to_nat N) /\
  forall i p,
    nth_error (create_investment_growth_chart v c N r) i = Some p ->
    ip_year p = Z.of_nat i /\
    ip_earnings p == ip_value p - ip_contributions p /\
    ip_contributions p == v + c * inject_Z (12 * Z.of_nat i).
Proof.
  intros HN.
  assert (HNn : N = Z.of_nat (Z.to_nat N)) by lia.
  revert HNn. generalize (Z.to_nat N). intros n ->. clear HN.
  rewrite growth_chart_points. split.
  - cbn [length]. now rewrite length_map, length_seq.
  - intros [|i] p Hp; cbn [nth_error] in Hp.
    + injection Hp as <-. cbn [ip_year ip_value ip_contributions ip_earnings].
      split; [reflexivity|]. split; [ring|]. change (Z.of_nat 0) with 0%Z.
      change (inject_Z (12 * 0)) with 0. ring.
    + rewrite nth_error_map, nth_error_seq in Hp.
      destruct (i <? n)%nat; [|discriminate]. cbn in Hp. injection Hp as <-.
      cbn [growth_point ip_year ip_value ip_contributions ip_earnings].
      split; [reflexivity|]. split; [reflexivity|].
      rewrite growth_state_contributions.
      replace (Z.of_nat (12 * S i)) with (12 * Z.of_nat (S i))%Z by lia.
      reflexivity.
Qed.

Lemma growth_chart_points_invariant_witness :
  (0 <= 3)%Z /\
  length (create_investment_growth_chart 1000 50 3 (6 # 100)) = S (Z.to_nat 3).
Proof.
  assert (HN : (0 <= 3)%Z) by lia.
  split; [exact HN|].
  exact (proj1 (growth_chart_points_invariant 1000 50 3 (6 # 100) HN)).
Defined.


Lemma py_pow_cases (b : Q) (e : Z) :
  ((e < 0)%Z /\ b == 0 /\ py_pow b e = Raise ZeroDivisionError)
  \/ (~ ((e < 0)%Z /\ b == 0) /\ py_pow b e = Ok (b ^ e)).
Proof.
  unfold py_pow. destruct (e <? 0)%Z eqn:Ee; destruct (Qeq_bool b 0) eqn:Eb; cbn [andb].
  - left. apply Z.ltb_lt in Ee. apply Qeq_bool_iff in Eb. auto.
  - right. apply Qeq_bool_false in Eb. split; [tauto | reflexivity].
  - right. apply Z.ltb_ge in Ee. split; [lia | reflexivity].
  - right. apply Z.ltb_ge in Ee. split; [lia | reflexivity].
Qed.

(** ** Amortization schedule: the rows *)

Lemma py_range_to_nat (z : Z) :
  py_range 1 (z + 1) = py_range 1 (Z.of_nat (Z.to_nat z) + 1).
Proof. unfold py_range. do 2 f_equal. lia. Qed.

Lemma amortization_rows (pay m P : Q) (n : nat) :
  fold_left (amortization_month pay m) (py_range 1 (Z.of_nat n + 1)) (P, [])
  = (balance_after pay m P n, map (amortization_row pay m P) (seq 0 n)).
Proof.
  induction n as [|n IH].
  - reflexivity.
  - rewrite py_range_snoc, fold_left_app, IH. cbn [fold_left amortization_month].
    rewrite seq_S, map_app. reflexivity.
Qed.

(** A schedule that is returned is the list of rows of the loop, one per
    month, built with the payment of [calculate_loan_payment]. *)
Lemma amortization_schedule_rows (principal annual_rate : Q) (years : Z)
  (rows : list AmortizationRow) :
  generate_amortization_schedule principal annual_rate years = Ok rows ->
  exists pay,
    calculate_loan_payment principal annual_rate years = Ok pay /\
    rows = map (amortization_row pay (annual_rate / 12) principal)
               (seq 0 (Z.to_nat (years * 12))).
Proof.
  unfold generate_amortization_schedule. intros H.
  destruct (calculate_loan_payment principal annual_rate years) as [pay|];
    cbn [pybind] in H; [|discriminate H].
  exists pay. split; [reflexivity|].
  rewrite py_range_to_nat, amortization_rows in H. now injection H as <-.
Qed.

(** X6: in every schedule that is returned, the row at index [i] is the row
    of month [i + 1], its payment is the monthly payment of
    [calculate_loan_payment], and its principal and interest portions add
    up to the payment; the schedule has [years * 12] rows, none for a
    negative term. *)
Theorem amortization_rows_invariant (principal annual_rate : Q) (years : Z)
  (rows : list AmortizationRow) :
  generate_amortization_schedule principal annual_rate years = Ok rows ->
  exists pay,
    calculate_loan_payment principal annual_rate years = Ok pay /\
    length rows = Z.to_nat (years * 12) /\
    forall i row, nth_error rows i = Some row ->
      ar_month row = (Z.of_nat i + 1)%Z /\
      ar_payment row = pay /\
      ar_principal row + ar_interest row == ar_payment row.
Proof.
  intros H. apply amortization_schedule_rows in H as (pay & Hpay & ->).
  exists pay. split; [exact Hpay|]. split.
  - now rewrite length_map, length_seq.
  - intros i row Hrow. rewrite nth_error_map, nth_error_seq in Hrow.
    destruct (i <? _)%nat; [|discriminate]. cbn in Hrow. injection Hrow as <-.
    cbn [amortization_row ar_month ar_payment ar_principal ar_interest].
    split; [lia|]. split; [reflexivity | ring].
Qed.

Lemma amortization_rows_invariant_witness :
  exists rows pay,
    generate_amortization_schedule 1200 0 1 = Ok rows /\
    calculate_loan_payment 1200 0 1 = Ok pay /\
    length rows = Z.to_nat (1 * 12).
Proof.
  assert (Hr : 0 <= 0) by apply Qle_refl.
  assert (Hy : (0 < 1)%Z) by lia.
  destruct (loan_payment_annuity 1200 0 1 Hr Hy) as (pay & Hpay & _).
  assert (E : generate_amortization_schedule 1200 0 1
              = Ok (snd (fold_left (amortization_month pay (0 / 12))
                                   (py_range 1 (1 * 12 + 1)) (1200, [])))).
  { unfold generate_amortization_schedule. rewrite Hpay. reflexivity. }
  destruct (amortization_rows_invariant 1200 0 1 _ E) as (pay' & Hpay' & Hlen & _).
  eexists _, pay'. split; [exact E|]. split; [exact Hpay' | exact Hlen].
Defined.

(** X7: a term of zero years makes the loan payment raise
    ZeroDivisionError at every principal and every rate, and the schedule
    raises with it. *)
Theorem loan_payment_zero_term (principal annual_rate : Q) :
  calculate_loan_payment principal annual_rate 0 = Raise ZeroDivisionError /\
  generate_amortization_schedule principal annual_rate 0 = Raise ZeroDivisionError.
Proof.
  assert (H : calculate_loan_payment principal annual_rate 0 = Raise ZeroDivisionError).
  { unfold calculate_loan_payment. change (0 * 12)%Z with 0%Z.
    destruct (Qeq_bool (annual_rate / 12) 0); [reflexivity|].
    unfold py_pow. change (0 <? 0)%Z with false. cbn [andb pybind].
    reflexivity. }
  split; [exact H|]. unfold generate_amortization_schedule. now rewrite H.
Qed.

(** ** Emergency fund ratio *)

(** X9: the emergency fund ratio is the [None] sentinel, never an
    exception, when the monthly expenses are [<= 0], and the number of
    months covered, [emergency_fund / monthly_expenses], when they are
    positive. *)
Theorem emergency_fund_ratio_spec (emergency_fund monthly_expenses : Q) :
  (monthly_expenses <= 0 ->
   calculate_emergency_fund_ratio emergency_fund monthly_expenses = Ok None) /\
  (0 < monthly_expenses ->
   calculate_emergency_fund_ratio emergency_fund monthly_expenses
   = Ok (Some (emergency_fund / monthly_expenses))).
Proof.
  unfold calculate_emergency_fund_ratio. split.
  - intros H. apply py_le_true in H. now rewrite H.
  - intros H. assert (E : py_le monthly_expenses 0 = false) by now apply py_le_false.
    rewrite E, py_div_ok; [reflexivity|]. lra.
Qed.

Lemma emergency_fund_ratio_spec_witness :
  calculate_emergency_fund_ratio 9000 0 = Ok None /\
  calculate_emergency_fund_ratio 9000 3000 = Ok (Some (9000 / 3000)).
Proof.
  split.
  - apply (proj1 (emergency_fund_ratio_spec 9000 0)). apply Qle_refl.
  - apply (proj2 (emergency_fund_ratio_spec 9000 3000)). unfold Qlt; simpl; lia.
Defined.

(** ** Retirement readiness: errors and consistency *)

(** X10: for ages whose difference is within the range of a float, the
    retirement analysis ends in the error result of a caught
    ZeroDivisionError exactly when the expected return is -1 and the
    retirement age lies before the current age (zero raised to a negative
    power). *)
Theorem retirement_readiness_error_iff
  (current_age retirement_age life_expectancy : Z)
  (current_savings monthly_contribution expected_return desired : Q) :
  (- 2 ^ 1023 <= retirement_age - current_age)%Z ->
  (analyze_retirement_readiness current_age retirement_age life_expectancy
     current_savings monthly_contribution expected_return desired
   = ErrorResult (CaughtException ZeroDivisionError)
   <-> (retirement_age < current_age)%Z /\ expected_return == -1).
Proof.
  intros _.
  assert (Hbase : 1 + expected_return == 0 <-> expected_return == -1).
  { split; intros H; lra. }
  unfold analyze_retirement_readiness.
  destruct (py_pow_cases (1 + expected_return) (retirement_age - current_age))
    as [(He & Hb & ->) | (Hn & ->)]; cbn [pybind try_except].
  - apply Hbase in Hb.
    split; [intros _; split; [lia | exact Hb] | reflexivity].
  - assert (Hno : ~ ((retirement_age < current_age)%Z /\ expected_return == -1)).
    { intros [Hy Hr]. apply Hn. split; [lia | now apply Hbase]. }
    pose proof (div_12 expected_return) as H12.
    assert (Hc : exists fvc,
      (if py_gt (expected_return / 12) 0
       then let* g' := py_pow (1 + expected_return / 12)
                         ((retirement_age - current_age) * 12) in
            let* a := py_div (g' - 1) (expected_return / 12) in
            Ok (monthly_contribution * a)
       else Ok (monthly_contribution
                * inject_Z ((retirement_age - current_age) * 12))) = Ok fvc).
    { destruct (py_gt (expected_return / 12) 0) eqn:Hgt.
      - apply py_gt_true in Hgt. rewrite py_pow_ok by lra. cbn [pybind].
        rewrite py_div_ok by lra. cbn [pybind]. eexists. reflexivity.
      - eexists. reflexivity. }
    destruct Hc as [fvc ->]. cbn [pybind].
    destruct (py_gt desired 0) eqn:Hd.
    + apply py_gt_true in Hd. rewrite py_div_ok by lra. cbn [pybind try_except].
      split; [discriminate | intros H; contradiction].
    + cbn [pybind try_except].
      split; [discriminate | intros H; contradiction].
Qed.

Lemma retirement_readiness_error_iff_witness :
  (- 2 ^ 1023 <= 60 - 65)%Z /\
  analyze_retirement_readiness 65 60 85 1000 100 (-1) 40000
  = ErrorResult (CaughtException ZeroDivisionError).
Proof.
  assert (Hages : (- 2 ^ 1023 <= 60 - 65)%Z) by (vm_compute; discriminate).
  split; [exact Hages|].
  apply (proj2 (retirement_readiness_error_iff 65 60 85 1000 100 (-1) 40000 Hages)).
  split; [lia | reflexivity].
Defined.

(** X11: in every returned analysis, [on_track] holds exactly when the
    income gap is [<= 0], and for a positive desired income exactly when
    the gap percentage is [<= 0]. *)
Theorem retirement_on_track_iff_no_gap
  (current_age retirement_age life_expectancy : Z)
  (current_savings monthly_contribution expected_return desired : Q)
  (a : RetirementAnalysis) :
  analyze_retirement_readiness current_age retirement_age life_expectancy
    current_savings monthly_contribution expected_return desired = Analysis a ->
  (ra_on_track a = true <-> ra_income_gap a <= 0) /\
  (0 < desired -> (ra_on_track a = true <-> ra_income_gap_percentage a <= 0)).
Proof.
  unfold analyze_retirement_readiness, try_except. intros H.
  ok_binds H. injection H as <-. cbn.
  split.
  - rewrite py_ge_true. split; intros H; lra.
  - intros Hd. rewrite py_ge_true.
    assert (Hgt : py_gt desired 0 = true) by now apply py_gt_true.
    rewrite Hgt in E1.
    destruct (py_div _ desired) as [q|] eqn:Eq; [|discriminate E1].
    injection E1 as <-. apply py_div_inv in Eq as [_ ->].
    set (gap := desired - (current_savings * a0 + a1) * (4 # 100)).
    assert (Hq : gap / desired * desired == gap) by (field; lra).
    split; intros H.
    + assert (Hg : gap <= 0) by (unfold gap; lra).
      assert (Hle : gap / desired * desired <= 0 * desired) by (rewrite Hq; lra).
      apply Qmult_lt_0_le_reg_r in Hle; [lra | exact Hd].
    + assert (Hle : gap / desired <= 0) by lra.
      assert (Hg : gap / desired * desired <= 0 * desired).
      { apply Qmult_le_compat_r; lra. }
      rewrite Hq in Hg. unfold gap in Hg. lra.
Qed.

Lemma retirement_on_track_iff_no_gap_witness :
  exists a,
    analyze_retirement_readiness 30 65 85 100000 500 0 40000 = Analysis a /\
    (ra_on_track a = true <-> ra_income_gap a <= 0).
Proof.
  eexists. split; [vm_compute; reflexivity|].
  refine (proj1 (retirement_on_track_iff_no_gap 30 65 85 100000 500 0 40000 _ _)).
  vm_compute; reflexivity.
Defined.

(** X12: the projected savings are the current savings compounded yearly
    plus what the investment calculator returns as the final amount for the
    same monthly contribution, term and rate with no initial investment:
    the contributions are compounded monthly, the savings yearly. *)
Theorem retirement_projection_decomposes
  (current_age retirement_age life_expectancy : Z)
  (current_savings monthly_contribution expected_return desired : Q)
  (a : RetirementAnalysis) (fa tc te : Q) :
  analyze_retirement_readiness current_age retirement_age life_expectancy
    current_savings monthly_contribution expected_return desired = Analysis a ->
  calculate_investment_returns 0 monthly_contribution
    (retirement_age - current_age) expected_return = Ok (fa, tc, te) ->
  ra_projected_savings a
  == current_savings * (1 + expected_return) ^ (retirement_age - current_age) + fa.
Proof.
  unfold analyze_retirement_readiness, try_except, calculate_investment_returns.
  intros H Hc. ok_binds H. injection H as <-. cbn [ra_projected_savings].
  apply py_pow_inv in E as ->.
  destruct (py_pow (1 + expected_return / 12) _) as [g|] eqn:Eg;
    cbn [pybind] in Hc; [|discriminate Hc].
  destruct (py_gt (expected_return / 12) 0).
  - cbn [pybind] in E0, Hc.
    destruct (py_div (g - 1) _) as [q|]; cbn [pybind] in E0, Hc; [|discriminate E0].
    injection E0 as <-. injection Hc as <- _ _. ring.
  - cbn [pybind] in Hc. injection E0 as <-. injection Hc as <- _ _. ring.
Qed.

Lemma retirement_projection_decomposes_witness :
  exists a fa tc te,
    analyze_retirement_readiness 30 32 85 100000 500 (6 # 100) 40000 = Analysis a /\
    calculate_investment_returns 0 500 (32 - 30) (6 # 100) = Ok (fa, tc, te) /\
    ra_projected_savings a == 100000 * (1 + (6 # 100)) ^ (32 - 30) + fa.
Proof.
  eexists _, _, _, _. split; [vm_compute; reflexivity|].
  split; [vm_compute; reflexivity|].
  refine (retirement_projection_decomposes 30 32 85 100000 500 (6 # 100) 40000
            _ _ _ _ _ _); vm_compute; reflexivity.
Defined.

(** ** Mortgage affordability: edge cases and structure *)

Lemma in_py_range_1_16 (x : Z) : In x (py_range 1 16) -> (1 <= x <= 15)%Z.
Proof.
  change (py_range 1 16) with [1; 2; 3; 4; 5; 6; 7; 8; 9; 10; 11; 12; 13; 14; 15]%Z.
  cbn [In]. intros H. repeat (destruct H as [<- | H]; [lia|]). destruct H.
Qed.

Lemma has_loan_true (down_payment : Q) (x : Z) :
  has_loan down_payment x = true <-> down_payment < inject_Z (x * 50000).
Proof.
  unfold has_loan. rewrite negb_true_iff, py_le_false. split; intros H; lra.
Qed.

Lemma has_loan_false (down_payment : Q) (x : Z) :
  has_loan down_payment x = false <-> inject_Z (x * 50000) <= down_payment.
Proof.
  unfold has_loan. rewrite negb_false_iff, py_le_true. split; intros H; lra.
Qed.

(** X13: with a down payment of 750,000 or more every sampled price is
    skipped: the analysis succeeds with no price points and a maximum
    affordable price of 0, whatever the rate and the term (a zero term
    included). *)
Theorem mortgage_affordability_all_skipped
  (income debt down_payment interest_rate : Q) (term_years : Z)
  (property_tax_rate insurance pmi_rate : Q) :
  750000 <= down_payment ->
  analyze_mortgage_affordability income debt down_payment interest_rate term_years
    property_tax_rate insurance pmi_rate
  = Analysis {| ma_max_housing_payment :=
                  py_min (income / 12 * (28 # 100)) (income / 12 * (36 # 100) - debt);
                ma_max_affordable_price := 0;
                ma_price_ranges := [] |}.
Proof.
  intros Hdp. unfold analyze_mortgage_affordability.
  set (mhp := py_min _ _).
  assert (H : forall items st,
            (forall x, In x items -> (x <= 15)%Z) ->
            py_for (mortgage_price_point mhp down_payment (interest_rate / 12)
                      (term_years * 12) property_tax_rate insurance pmi_rate)
                   items st = Ok st).
  { induction items as [|x items IH]; intros st Hx; cbn [py_for]; [reflexivity|].
    assert (Hskip : py_le (inject_Z (x * 50000) - down_payment) 0 = true).
    { apply py_le_true.
      assert (Hle : inject_Z (x * 50000) <= inject_Z 750000).
      { apply inject_Z_le. specialize (Hx x (in_eq _ _)). lia. }
      change (inject_Z 750000) with 750000 in Hle. lra. }
    unfold mortgage_price_point at 1. destruct st as [prs mp]. rewrite Hskip.
    cbn [pybind]. apply IH. intros y Hy. apply Hx. now apply in_cons. }
  rewrite H; [reflexivity|]. intros x Hx. apply in_py_range_1_16 in Hx. lia.
Qed.

Lemma mortgage_affordability_all_skipped_witness :
  750000 <= 800000 /\
  analyze_mortgage_affordability 1200000 0 800000 (8 # 100) 0 (1 # 100) 100 (5 # 1000)
  = Analysis {| ma_max_housing_payment :=
                  py_min (1200000 / 12 * (28 # 100)) (1200000 / 12 * (36 # 100) - 0);
                ma_max_affordable_price := 0;
                ma_price_ranges := [] |}.
Proof.
  assert (H : 750000 <= 800000) by (unfold Qle; simpl; lia).
  split; [exact H|].
  exact (mortgage_affordability_all_skipped 1200000 0 800000 (8 # 100) 0
           (1 # 100) 100 (5 # 1000) H).
Defined.

(** X14: with a term of zero years and a down payment below 750,000 the
    analysis ends in the error result with the caught ZeroDivisionError, at
    every rate: the first price that needs a loan divides by zero. *)
Theorem mortgage_affordability_zero_term
  (income debt down_payment interest_rate : Q)
  (property_tax_rate insurance pmi_rate : Q) :
  down_payment < 750000 ->
  analyze_mortgage_affordability income debt down_payment interest_rate 0
    property_tax_rate insurance pmi_rate
  = ErrorResult (CaughtException ZeroDivisionError).
Proof.
  intros Hdp. unfold analyze_mortgage_affordability.
  set (mhp := py_min _ _). change (0 * 12)%Z with 0%Z.
  assert (H : forall items st,
            (forall x, In x items -> (1 <= x)%Z) ->
            (exists x, In x items /\ has_loan down_payment x = true) ->
            py_for (mortgage_price_point mhp down_payment (interest_rate / 12) 0
                      property_tax_rate insurance pmi_rate)
                   items st = Raise ZeroDivisionError).
  { induction items as [|x items IH]; intros st Hpos (y & Hy & Hloan).
    - destruct Hy.
    - cbn [py_for]. unfold mortgage_price_point at 1. destruct st as [prs mp].
      destruct (py_le (inject_Z (x * 50000) - down_payment) 0) eqn:Hskip.
      + cbn [pybind]. apply IH.
        * intros z Hz. apply Hpos. now apply in_cons.
        * exists y. split; [|exact Hloan]. destruct Hy as [<- | Hy]; [|exact Hy].
          unfold has_loan in Hloan. rewrite Hskip in Hloan. discriminate.
      + assert (Hh : 0 < inject_Z (x * 50000)).
        { apply inject_Z_pos. specialize (Hpos x (in_eq _ _)). lia. }
        rewrite py_div_ok by lra. cbn [pybind].
        destruct (Qeq_bool (interest_rate / 12) 0); reflexivity. }
  rewrite H; [reflexivity | |].
  - intros x Hx. apply in_py_range_1_16 in Hx. lia.
  - exists 15%Z. split.
    + change (py_range 1 16) with [1; 2; 3; 4; 5; 6; 7; 8; 9; 10; 11; 12; 13; 14; 15]%Z.
      cbn [In]. tauto.
    + apply has_loan_true. change (inject_Z (15 * 50000)) with 750000. exact Hdp.
Qed.

Lemma mortgage_affordability_zero_term_witness :
  200000 < 750000 /\
  analyze_mortgage_affordability 1200000 0 200000 (8 # 100) 0 (1 # 100) 100 (5 # 1000)
  = ErrorResult (CaughtException ZeroDivisionError).
Proof.
  assert (H : 200000 < 750000) by (unfold Qlt; simpl; lia).
  split; [exact H|].
  exact (mortgage_affordability_zero_term 1200000 0 200000 (8 # 100)
           (1 # 100) 100 (5 # 1000) H).
Defined.

(** X15: in every returned analysis each price point has a price
    [k * 50000] with [1 <= k <= 15] that exceeds the down payment; its
    monthly payment is the sum of its four detail columns; the insurance
    column is the insurance argument, the tax column is
    [home_price * property_tax_rate / 12], and the PMI column is
    [loan_amount * pmi_rate / 12] when the down payment is below 20% of the
    price and 0 otherwise.  The prices strictly increase along the list. *)
Theorem mortgage_price_points_structure
  (income debt down_payment interest_rate : Q) (term_years : Z)
  (property_tax_rate insurance pmi_rate : Q) (res : MortgageAffordability) :
  analyze_mortgage_affordability income debt down_payment interest_rate term_years
    property_tax_rate insurance pmi_rate = Analysis res ->
  (forall p, In p (ma_price_ranges res) ->
     let h := inject_Z (pr_home_price p) in
     let d := pr_details p in
     (exists k, (1 <= k <= 15)%Z /\ pr_home_price p = (k * 50000)%Z) /\
     down_payment < h /\
     pr_monthly_payment p
     = pd_mortgage d + pd_property_tax d + pd_insurance d + pd_pmi d /\
     pd_insurance d = insurance /\
     pd_property_tax d = h * property_tax_rate / 12 /\
     (down_payment / h < 2 # 10 ->
      pd_pmi d = (h - down_payment) * pmi_rate / 12) /\
     (2 # 10 <= down_payment / h -> pd_pmi d = 0)) /\
  StronglySorted (fun p q => (pr_home_price p < pr_home_price q)%Z)
                 (ma_price_ranges res).
Proof.
  intros H. apply mortgage_affordability_result in H as (_ & -> & _).
  split; [|apply points_price_sorted, py_range_1_16_sorted].
  intros p Hp. unfold sweep_points in Hp. apply in_map_iff in Hp as (k & <- & Hk).
  apply filter_In in Hk as [Hk Hloan]. apply in_py_range_1_16 in Hk.
  apply has_loan_true in Hloan.
  cbn [price_point_at pr_home_price pr_details pr_monthly_payment pd_mortgage
       pd_property_tax pd_insurance pd_pmi].
  split; [exists k; split; [exact Hk | reflexivity]|].
  split; [exact Hloan|]. split; [reflexivity|]. split; [reflexivity|].
  split; [reflexivity|]. unfold pmi_at. split.
  - intros Hlt. apply py_lt_true in Hlt. now rewrite Hlt.
  - intros Hge. apply py_lt_false in Hge. now rewrite Hge.
Qed.

Lemma mortgage_price_points_structure_witness :
  exists res,
    analyze_mortgage_affordability 60000 0 20000 0 30 (1 # 100) 100 (5 # 1000)
    = Analysis res /\
    StronglySorted (fun p q => (pr_home_price p < pr_home_price q)%Z)
                   (ma_price_ranges res).
Proof.
  eexists. split; [vm_compute; reflexivity|].
  refine (proj2 (mortgage_price_points_structure 60000 0 20000 0 30
                   (1 # 100) 100 (5 # 1000) _ _)).
  vm_compute; reflexivity.
Defined.

(** *** More income, or less debt, never lowers the affordable price *)

Lemma last_affordable_mono
  (mhp1 mhp2 down_payment monthly_rate : Q) (total_payments : Z)
  (property_tax_rate insurance pmi_rate : Q) (items : list Z) :
  mhp1 <= mhp2 ->
  StronglySorted Z.lt items ->
  forall mp1 mp2 : Z,
    (mp1 <= mp2)%Z ->
    Forall (fun x => (mp2 < x * 50000)%Z) items ->
    (last_affordable mp1
       (sweep_points mhp1 down_payment monthly_rate total_payments
          property_tax_rate insurance pmi_rate items)
     <= last_affordable mp2
          (sweep_points mhp2 down_payment monthly_rate total_payments
             property_tax_rate insurance pmi_rate items))%Z.
Proof.
  intros Hmhp Hs. induction Hs as [|x items Hs IH Hx]; intros mp1 mp2 Hmp Hbound.
  - exact Hmp.
  - apply Forall_cons_1 in Hbound as [Hxb Hrest].
    unfold sweep_points. cbn [List.filter].
    destruct (has_loan down_payment x); [|now apply IH].
    cbn [map]. unfold last_affordable. cbn [fold_left].
    fold (last_affordable). 
    change (map _ (List.filter (has_loan down_payment) items))
      with (sweep_points mhp1 down_payment monthly_rate total_payments
              property_tax_rate insurance pmi_rate items) at 1.
    change (map _ (List.filter (has_loan down_payment) items))
      with (sweep_points mhp2 down_payment monthly_rate total_payments
              property_tax_rate insurance pmi_rate items).
    cbn [price_point_at pr_affordable pr_home_price].
    set (t := monthly_total_at _ _ _ _ _ _ _).
    assert (Hnext : forall mp, (mp = mp2 \/ mp = x * 50000)%Z ->
              Forall (fun y => (mp < y * 50000)%Z) items).
    { intros mp Hcase. rewrite List.Forall_forall in *. intros y Hy.
      specialize (Hx y Hy). specialize (Hrest y Hy). lia. }
    destruct (py_le t mhp1) eqn:E1; destruct (py_le t mhp2) eqn:E2.
    + apply IH; [lia | apply Hnext; now right].
    + apply py_le_true in E1. apply py_le_false in E2. lra.
    + apply IH; [lia | apply Hnext; now right].
    + apply IH; [lia | apply Hnext; now left].
Qed.

(** X16: with the other inputs fixed, a higher income or a lower monthly
    debt never lowers the result: whenever both analyses are returned, the
    maximum housing payment and the maximum affordable price of the
    second are at least those of the first. *)
Theorem mortgage_affordability_monotone_in_income
  (income1 income2 debt1 debt2 down_payment interest_rate : Q) (term_years : Z)
  (property_tax_rate insurance pmi_rate : Q) (res1 res2 : MortgageAffordability) :
  income1 <= income2 -> debt2 <= debt1 ->
  analyze_mortgage_affordability income1 debt1 down_payment interest_rate term_years
    property_tax_rate insurance pmi_rate = Analysis res1 ->
  analyze_mortgage_affordability income2 debt2 down_payment interest_rate term_years
    property_tax_rate insurance pmi_rate = Analysis res2 ->
  ma_max_housing_payment res1 <= ma_max_housing_payment res2 /\
  (ma_max_affordable_price res1 <= ma_max_affordable_price res2)%Z.
Proof.
  intros Hinc Hdebt H1 H2.
  apply mortgage_affordability_result in H1 as (Hm1 & _ & Hp1).
  apply mortgage_affordability_result in H2 as (Hm2 & _ & Hp2).
  rewrite Hm1, Hm2, Hp1, Hp2.
  assert (Hmhp : py_min (income1 / 12 * (28 # 100)) (income1 / 12 * (36 # 100) - debt1)
                 <= py_min (income2 / 12 * (28 # 100))
                           (income2 / 12 * (36 # 100) - debt2)).
  { unfold py_min. rewrite !div_12. apply Q.min_le_compat; lra. }
  split; [exact Hmhp|].
  apply last_affordable_mono;
    [exact Hmhp | apply py_range_1_16_sorted | lia |].
  apply List.Forall_forall. intros x Hx. apply in_py_range_1_16 in Hx. lia.
Qed.

Lemma mortgage_affordability_monotone_in_income_witness :
  exists res1 res2,
    analyze_mortgage_affordability 60000 500 20000 0 30 (1 # 100) 100 (5 # 1000)
    = Analysis res1 /\
    analyze_mortgage_affordability 90000 0 20000 0 30 (1 # 100) 100 (5 # 1000)
    = Analysis res2 /\
    (ma_max_affordable_price res1 <= ma_max_affordable_price res2)%Z.
Proof.
  assert (Hinc : 60000 <= 90000) by (unfold Qle; simpl; lia).
  assert (Hdebt : 0 <= 500) by (unfold Qle; simpl; lia).
  eexists _, _. split; [vm_compute; reflexivity|]. split; [vm_compute; reflexivity|].
  refine (proj2 (mortgage_affordability_monotone_in_income 60000 90000 500 0 20000 0 30
                   (1 # 100) 100 (5 # 1000) _ _ Hinc Hdebt _ _));
    vm_compute; reflexivity.
Defined.

(** ** Stock metrics and portfolio: errors and totals *)

Lemma stock_metrics_nonempty
  (ticker_info : string -> pyresult StockInfo)
  (ticker_history : string -> period -> pyresult (list PriceBar))
  (ticker : string) (info : StockInfo) (hist : list PriceBar) :
  ticker_info ticker = Ok info ->
  ticker_history ticker Period1y = Ok hist ->
  hist <> [] ->
  exists m, get_stock_metrics ticker_info ticker_history ticker = Analysis m /\
            close_from_end (map pb_close hist) 1 = Some (sm_current_price m).
Proof.
  intros Hinfo Hhist Hne. set (closes := map pb_close hist).
  assert (Hlen : length closes = length hist) by apply length_map.
  assert (Hpos : (1 <= length closes)%nat).
  { rewrite Hlen. destruct hist; [congruence | simpl; lia]. }
  destruct (iloc_neg_spec closes 1) as (current_price & Hcur & Hrev); [lia|].
  destruct (nth_error closes 0) as [oldest|] eqn:Hold;
    [|apply nth_error_None in Hold; lia].
  unfold get_stock_metrics. rewrite Hinfo, Hhist. cbn [pybind].
  rewrite match_nonempty by exact Hne. fold closes.
  rewrite Hcur. cbn [pybind]. rewrite <- !Hlen.
  rewrite !window_return_ok by (lia || exact Hrev). cbn [pybind].
  unfold iloc. rewrite Hold.
  destruct (252 <=? length closes)%nat; cbn [pybind try_except];
    eexists; (split; [reflexivity | exact Hrev]).
Qed.

(** X17: [get_stock_metrics] returns metrics exactly when the provider
    returns both the descriptive info and a non-empty one-year history;
    an exception of the provider, or an empty history, gives an error
    result instead (never an exception). *)
Theorem stock_metrics_analysis_iff
  (ticker_info : string -> pyresult StockInfo)
  (ticker_history : string -> period -> pyresult (list PriceBar))
  (ticker : string) :
  ((exists m, get_stock_metrics ticker_info ticker_history ticker = Analysis m)
   <-> exists info hist, ticker_info ticker = Ok info /\
                         ticker_history ticker Period1y = Ok hist /\ hist <> []) /\
  (forall e, ticker_info ticker = Raise e ->
     get_stock_metrics ticker_info ticker_history ticker
     = ErrorResult (CaughtException e)) /\
  (forall info e, ticker_info ticker = Ok info ->
     ticker_history ticker Period1y = Raise e ->
     get_stock_metrics ticker_info ticker_history ticker
     = ErrorResult (CaughtException e)) /\
  (forall info, ticker_info ticker = Ok info ->
     ticker_history ticker Period1y = Ok [] ->
     get_stock_metrics ticker_info ticker_history ticker
     = ErrorResult (NoTickerData ticker)).
Proof.
  split; [|split; [|split]].
  - split.
    + intros [m Hm]. unfold get_stock_metrics in Hm.
      destruct (ticker_info ticker) as [info|]; cbn [pybind try_except] in Hm;
        [|discriminate Hm].
      destruct (ticker_history ticker Period1y) as [hist|]; cbn [pybind try_except] in Hm;
        [|discriminate Hm].
      destruct hist as [|b hist]; [discriminate Hm|].
      exists info, (b :: hist). repeat split; discriminate.
    + intros (info & hist & Hinfo & Hhist & Hne).
      destruct (stock_metrics_nonempty ticker_info ticker_history ticker
                  info hist Hinfo Hhist Hne) as (m & Hm & _).
      exists m. exact Hm.
  - intros e He. unfold get_stock_metrics. now rewrite He.
  - intros info e Hi He. unfold get_stock_metrics. now rewrite Hi, He.
  - intros info Hi He. unfold get_stock_metrics. now rewrite Hi, He.
Qed.

Lemma stock_metrics_analysis_iff_witness :
  get_stock_metrics (fun _ => Ok no_info) (fun _ _ => Ok []) "ACME"
  = ErrorResult (NoTickerData "ACME") /\
  get_stock_metrics (fun _ => Raise GatewayError) (fun _ _ => Ok history_253) "ACME"
  = ErrorResult (CaughtException GatewayError).
Proof.
  split.
  - apply (proj2 (proj2 (proj2 (stock_metrics_analysis_iff
             (fun _ => Ok no_info) (fun _ _ => Ok []) "ACME"))) no_info);
      reflexivity.
  - apply (proj1 (proj2 (stock_metrics_analysis_iff
             (fun _ => Raise GatewayError) (fun _ _ => Ok history_253) "ACME")));
      reflexivity.
Defined.

(** *** Portfolio loop *)

Lemma sum_over_app {A : Type} (f : A -> Q) (l1 l2 : list A) :
  sum_over f (l1 ++ l2) == sum_over f l1 + sum_over f l2.
Proof.
  unfold sum_over. induction l1 as [|x l1 IH]; cbn [app fold_right].
  - ring.
  - rewrite IH. ring.
Qed.

Section PortfolioLoop.

Variable ticker_history : string -> period -> pyresult (list PriceBar).

Local Notation "'body'" := (portfolio_holding ticker_history).

(** What the loop has appended and added up when it ends without an
    exception. *)
Lemma portfolio_loop (holdings : list PortfolioHolding) :
  forall data tv tc data' tv' tc',
    py_for body holdings (data, tv, tc) = Ok (data', tv', tc') ->
    exists new,
      data' = data ++ new /\
      tv' == tv + sum_over hd_current_value new /\
      tc' == tc + sum_over (fun d => hd_shares d * hd_cost_basis d) new /\
      Forall (fun d => hd_current_value d = hd_shares d * hd_latest_price d /\
                       hd_gain_loss d
                       = hd_current_value d - hd_shares d * hd_cost_basis d) new /\
      (length new <= length holdings)%nat.
Proof using Type.
  induction holdings as [|h hs IH]; intros data tv tc data' tv' tc' H.
  - cbn [py_for] in H. injection H as <- <- <-. exists [].
    rewrite app_nil_r. unfold sum_over. cbn [fold_right].
    repeat split; try ring; [constructor | reflexivity].
  - cbn [py_for] in H. unfold portfolio_holding at 1 in H.
    destruct (ticker_history _ _) as [hist|]; cbn [pybind] in H; [|discriminate H].
    destruct hist as [|b hist].
    + cbn [pybind] in H. apply IH in H as (new & Hd & Hv & Hc & Hrows & Hlen).
      exists new. repeat split; try assumption. cbn [length]. lia.
    + destruct (iloc_neg _ 1) as [latest|]; cbn [pybind] in H; [|discriminate H].
      match type of H with
      | pybind (pybind ?m _) _ = _ =>
          destruct m as [pct|]; cbn [pybind] in H; [|discriminate H]
      end.
      apply IH in H as (new & Hd & Hv & Hc & Hrows & Hlen).
      eexists (_ :: new). split; [rewrite Hd, <- app_assoc; reflexivity|].
      unfold sum_over in *.
      cbn [fold_right hd_current_value hd_shares hd_cost_basis].
      split; [rewrite Hv; ring|]. split; [rewrite Hc; ring|].
      split; [constructor; [split; reflexivity | exact Hrows]|].
      cbn [length]. lia.
Qed.

(** With a history for its ticker, a holding never makes the loop raise. *)
Lemma portfolio_holding_no_raise st holding hist :
  ticker_history (ph_ticker holding) Period1d = Ok hist ->
  exists st', body st holding = Ok st'.
Proof using Type.
  intros Hh. unfold portfolio_holding. destruct st as [[data tv] tc].
  rewrite Hh. cbn [pybind]. destruct hist as [|b hist]; [eexists; reflexivity|].
  destruct (iloc_neg_spec (map pb_close (b :: hist)) 1) as (latest & -> & _).
  { cbn [map length]. lia. }
  cbn [pybind].
  destruct (py_gt (ph_shares holding * ph_cost_basis holding) 0) eqn:Hgt.
  - apply py_gt_true in Hgt. rewrite py_div_ok by lra. cbn [pybind].
    eexists. reflexivity.
  - cbn [pybind]. eexists. reflexivity.
Qed.

End PortfolioLoop.

(** X18: in every returned portfolio result the totals are the sums over
    the per-holding breakdown: total value of the current values, total
    cost of shares times cost basis, total gain of the per-holding gains;
    each row's value is shares times latest price; and the total
    percentage is gain over cost times 100 for a positive cost and 0
    otherwise.  The breakdown has at most one row per holding. *)
Theorem portfolio_totals_are_sums
  (ticker_history : string -> period -> pyresult (list PriceBar))
  (holdings : list PortfolioHolding) (m : PortfolioMetrics) :
  calculate_portfolio_metrics ticker_history (Some holdings) = Analysis m ->
  pm_total_value m == sum_over hd_current_value (pm_holdings_data m) /\
  pm_total_cost m
  == sum_over (fun d => hd_shares d * hd_cost_basis d) (pm_holdings_data m) /\
  pm_total_gain_loss m == sum_over hd_gain_loss (pm_holdings_data m) /\
  Forall (fun d => hd_current_value d = hd_shares d * hd_latest_price d)
         (pm_holdings_data m) /\
  (0 < pm_total_cost m ->
   pm_total_gain_loss_pct m = pm_total_gain_loss m / pm_total_cost m * 100) /\
  (pm_total_cost m <= 0 -> pm_total_gain_loss_pct m = 0) /\
  (length (pm_holdings_data m) <= length holdings)%nat.
Proof.
  intros H. unfold calculate_portfolio_metrics in H.
  destruct holdings as [|h hs].
  - cbn in H. injection H as <-. cbn. unfold sum_over. cbn [fold_right].
    repeat split; try reflexivity; try constructor.
  - destruct (py_for _ (h :: hs) _) as [[[data tv] tc]|] eqn:E;
      cbn [pybind try_except] in H; [|discriminate H].
    apply portfolio_loop in E as (new & Hd & Hv & Hc & Hrows & Hlen).
    cbn [app] in Hd. subst data.
    assert (Hgain : sum_over hd_gain_loss new
                    == sum_over hd_current_value new
                       - sum_over (fun d => hd_shares d * hd_cost_basis d) new).
    { clear -Hrows. unfold sum_over. induction Hrows as [|d l [_ Hg] _ IH];
        cbn [fold_right]; [ring|]. rewrite IH, Hg. ring. }
    destruct (py_gt tc 0) eqn:Hgt.
    + apply py_gt_true in Hgt.
      destruct (py_div (tv - tc) tc) as [q|] eqn:Eq;
        cbn [pybind try_except] in H; [|discriminate H].
      apply py_div_inv in Eq as [_ ->]. injection H as <-.
      cbn [pm_total_value pm_total_cost pm_total_gain_loss pm_total_gain_loss_pct
           pm_holdings_data].
      split; [rewrite Hv; ring|]. split; [rewrite Hc; ring|].
      split; [rewrite Hgain, Hv, Hc; ring|].
      split; [eapply Forall_impl; [exact Hrows | intros d [Hd _]; exact Hd]|].
      split; [reflexivity|]. split; [intros Hle; lra | exact Hlen].
    + apply py_gt_false in Hgt. cbn [pybind try_except] in H. injection H as <-.
      cbn [pm_total_value pm_total_cost pm_total_gain_loss pm_total_gain_loss_pct
           pm_holdings_data].
      split; [rewrite Hv; ring|]. split; [rewrite Hc; ring|].
      split; [rewrite Hgain, Hv, Hc; ring|].
      split; [eapply Forall_impl; [exact Hrows | intros d [Hd _]; exact Hd]|].
      split; [intros Hlt; lra|]. split; [reflexivity | exact Hlen].
Qed.

Lemma portfolio_totals_are_sums_witness :
  exists m,
    calculate_portfolio_metrics (fun _ _ => Ok history_253)
      (Some [ {| ph_ticker := "ACME"; ph_shares := 10; ph_cost_basis := 3 |} ])
    = Analysis m /\
    pm_total_value m == sum_over hd_current_value (pm_holdings_data m).
Proof.
  eexists. split; [vm_compute; reflexivity|].
  refine (proj1 (portfolio_totals_are_sums (fun _ _ => Ok history_253)
            [ {| ph_ticker := "ACME"; ph_shares := 10; ph_cost_basis := 3 |} ] _ _)).
  vm_compute; reflexivity.
Defined.

(** X19: when the provider has no price history for any of the holdings,
    every holding is skipped and the result is the all-zero result with an
    empty breakdown, the same as for no holdings; it is not an error. *)
Theorem portfolio_all_holdings_skipped
  (ticker_history : string -> period -> pyresult (list PriceBar))
  (holdings : list PortfolioHolding) :
  (forall h, In h holdings -> ticker_history (ph_ticker h) Period1d = Ok []) ->
  calculate_portfolio_metrics ticker_history (Some holdings)
  = Analysis {| pm_total_value := 0;
                pm_total_cost := 0;
                pm_total_gain_loss := 0;
                pm_total_gain_loss_pct := 0;
                pm_holdings_data := [] |}.
Proof.
  intros Hall.
  assert (H : forall hs st, (forall h, In h hs -> In h holdings) ->
            py_for (portfolio_holding ticker_history) hs st = Ok st).
  { induction hs as [|h hs IH]; intros st Hin; cbn [py_for]; [reflexivity|].
    unfold portfolio_holding at 1. destruct st as [[data tv] tc].
    rewrite (Hall h (Hin h (in_eq _ _))). cbn [pybind].
    apply IH. intros h' Hh'. apply Hin. now apply in_cons. }
  unfold calculate_portfolio_metrics. destruct holdings as [|h hs]; [reflexivity|].
  rewrite H by auto. reflexivity.
Qed.

Lemma portfolio_all_holdings_skipped_witness :
  calculate_portfolio_metrics (fun _ _ => Ok [])
    (Some [ {| ph_ticker := "ACME"; ph_shares := 10; ph_cost_basis := 3 |} ])
  = Analysis {| pm_total_value := 0;
                pm_total_cost := 0;
                pm_total_gain_loss := 0;
                pm_total_gain_loss_pct := 0;
                pm_holdings_data := [] |}.
Proof.
  apply (portfolio_all_holdings_skipped (fun _ _ => Ok [])).
  intros h _. reflexivity.
Defined.

(** X20: an exception of the provider on one holding aborts the whole
    computation: if the provider returns a history (possibly empty) for the
    holdings before it and raises on this one, the result is the error
    result with that exception, whatever the earlier holdings contributed. *)
Theorem portfolio_provider_exception_aborts
  (ticker_history : string -> period -> pyresult (list PriceBar))
  (before after : list PortfolioHolding) (failing : PortfolioHolding) (e : pyexn) :
  (forall h, In h before ->
     exists hist, ticker_history (ph_ticker h) Period1d = Ok hist) ->
  ticker_history (ph_ticker failing) Period1d = Raise e ->
  calculate_portfolio_metrics ticker_history (Some (before ++ failing :: after))
  = ErrorResult (CaughtException e).
Proof.
  intros Hbefore Hfail.
  assert (H : forall hs st, (forall h, In h hs -> In h before) ->
            py_for (portfolio_holding ticker_history) (hs ++ failing :: after) st
            = Raise e).
  { induction hs as [|h hs IH]; intros st Hin; cbn [app py_for].
    - unfold portfolio_holding at 1. destruct st as [[data tv] tc].
      now rewrite Hfail.
    - destruct (Hbefore h (Hin h (in_eq _ _))) as [hist Hh].
      destruct (portfolio_holding_no_raise ticker_history st h hist Hh) as [st' ->].
      cbn [pybind]. apply IH. intros h' Hh'. apply Hin. now apply in_cons. }
  unfold calculate_portfolio_metrics.
  destruct (before ++ failing :: after) as [|h hs] eqn:E.
  - destruct before; discriminate E.
  - rewrite <- E, H by auto. reflexivity.
Qed.

Lemma portfolio_provider_exception_aborts_witness :
  calculate_portfolio_metrics
    (fun t _ => if String.eqb t "ACME" then Ok history_253 else Raise GatewayError)
    (Some ([ {| ph_ticker := "ACME"; ph_shares := 10; ph_cost_basis := 3 |} ]
           ++ {| ph_ticker := "NONE"; ph_shares := 1; ph_cost_basis := 1 |} :: []))
  = ErrorResult (CaughtException GatewayError).
Proof.
  apply (portfolio_provider_exception_aborts
           (fun t _ => if String.eqb t "ACME" then Ok history_253 else Raise GatewayError)).
  - intros h [<- | []]. exists history_253. reflexivity.
  - reflexivity.
Defined.

(** ** Sums over a mapping: budget summary and net worth *)

(** Addition of rationals commutes on the nose across an accumulator. *)
Lemma Qplus_swap (y a b : Q) : y + a + b = y + b + a.
Proof.
  destruct y as [yn yd], a as [an ad], b as [bn bd]. unfold Qplus. cbn.
  f_equal; [|lia]. rewrite !Pos2Z.inj_mul. ring.
Qed.

Lemma sum_values_empty : sum_values ∅ = 0.
Proof. unfold sum_values. apply map_fold_empty. Qed.

Lemma sum_values_insert (m : gmap string Q) (k : string) (v : Q) :
  m !! k = None -> sum_values (<[k:=v]> m) = sum_values m + v.
Proof.
  intros Hk. unfold sum_values. rewrite map_fold_insert_L; [reflexivity | | exact Hk].
  intros j1 j2 z1 z2 y _ _ _. apply Qplus_swap.
Qed.

Lemma sum_values_overwrite (m : gmap string Q) (k : string) (old v : Q) :
  m !! k = Some old -> sum_values (<[k:=v]> m) == sum_values m - old + v.
Proof.
  intros Hk. rewrite <- (insert_delete_id m k old Hk) at 2.
  rewrite <- insert_delete_eq.
  rewrite !sum_values_insert by apply lookup_delete_eq. ring.
Qed.

Lemma sum_values_nonneg (m : gmap string Q) :
  map_Forall (fun _ v => 0 <= v) m -> 0 <= sum_values m.
Proof.
  induction m as [|k v m Hk IH] using map_ind; intros H.
  - rewrite sum_values_empty. apply Qle_refl.
  - rewrite sum_values_insert by exact Hk.
    apply map_Forall_insert in H as [Hv Hm]; [|exact Hk].
    specialize (IH Hm). lra.
Qed.

(** The summary for every input, both branches at once. *)
Lemma budget_summary_total (income : Q) (expenses : gmap string Q) :
  exists s,
    calculate_budget_summary income expenses = Ok s /\
    bs_income s = income /\
    bs_total_expenses s == sum_values expenses /\
    bs_remaining s == income - sum_values expenses /\
    (0 < income ->
     bs_savings_rate s == (income - sum_values expenses) / income * 100) /\
    (income <= 0 -> bs_savings_rate s = 0).
Proof.
  unfold calculate_budget_summary. destruct (decide (expenses = ∅)) as [-> | Hne].
  - eexists. split; [reflexivity|]. cbn. rewrite sum_values_empty.
    split; [reflexivity|]. split; [reflexivity|]. split; [ring|]. split.
    + intros H. rewrite (proj2 (py_gt_true _ _) H). field. lra.
    + intros H. now rewrite (proj2 (py_gt_false _ _) H).
  - destruct (py_gt income 0) eqn:Hgt.
    + apply py_gt_true in Hgt. rewrite py_div_ok by lra. cbn [pybind].
      eexists. split; [reflexivity|]. cbn.
      repeat split; try reflexivity. intros H. lra.
    + apply py_gt_false in Hgt. cbn [pybind].
      eexists. split; [reflexivity|]. cbn.
      repeat split; try reflexivity. intros H. lra.
Qed.

(** X21: the budget summary never raises, for any income and any mapping;
    its total is the sum of the expense values, [remaining] is the income
    less that sum, and the savings rate is [remaining / income * 100] for a
    positive income, empty mapping included (where this is 100), and 0
    for an income [<= 0]. *)
Theorem budget_summary_spec (income : Q) (expenses : gmap string Q) :
  exists s,
    calculate_budget_summary income expenses = Ok s /\
    bs_income s = income /\
    bs_total_expenses s == sum_values expenses /\
    bs_remaining s == income - sum_values expenses /\
    (0 < income ->
     bs_savings_rate s == (income - sum_values expenses) / income * 100) /\
    (income <= 0 -> bs_savings_rate s = 0).
Proof. apply budget_summary_total. Qed.

Lemma budget_summary_spec_witness :
  exists s,
    calculate_budget_summary 5000 {[ "Rent" := 2000 ]} = Ok s /\
    bs_remaining s == 5000 - sum_values {[ "Rent" := 2000 ]}.
Proof.
  destruct (budget_summary_spec 5000 {[ "Rent" := 2000 ]})
    as (s & Hs & _ & _ & Hrem & _).
  exists s. split; [exact Hs | exact Hrem].
Defined.

(** X22: with a positive income and no negative expense amount, the
    remaining amount is at most the income and the savings rate at most
    100; the rate is non-negative exactly when the expenses do not exceed
    the income. *)
Theorem budget_summary_bounds (income : Q) (expenses : gmap string Q) :
  0 < income ->
  map_Forall (fun _ v => 0 <= v) expenses ->
  exists s,
    calculate_budget_summary income expenses = Ok s /\
    bs_remaining s <= income /\
    bs_savings_rate s <= 100 /\
    (0 <= bs_savings_rate s <-> sum_values expenses <= income).
Proof.
  intros Hinc Hexp.
  destruct (budget_summary_total income expenses) as (s & Hs & _ & _ & Hrem & Hrate & _).
  pose proof (sum_values_nonneg expenses Hexp) as Hsum.
  specialize (Hrate Hinc). exists s. split; [exact Hs|].
  set (t := sum_values expenses) in *.
  assert (E : (income - t) / income * 100 * income == (income - t) * 100)
    by (field; lra).
  set (q := (income - t) / income * 100) in *.
  split; [lra|]. rewrite Hrate. split; [|split]; intros.
  - destruct (Qlt_le_dec 100 q) as [Hbad | Hok]; [|exact Hok].
    exfalso. assert (Hc : 100 * income < q * income).
    { apply Qmult_lt_compat_r; assumption. }
    lra.
  - destruct (Qlt_le_dec income t) as [Hbad | Hok]; [|exact Hok].
    exfalso. assert (Hc : 0 * income <= q * income).
    { apply Qmult_le_compat_r; lra. }
    lra.
  - destruct (Qlt_le_dec q 0) as [Hbad | Hok]; [|exact Hok].
    exfalso. assert (Hc : q * income < 0 * income).
    { apply Qmult_lt_compat_r; assumption. }
    lra.
Qed.

Lemma budget_summary_bounds_witness :
  0 < 5000 /\
  exists s,
    calculate_budget_summary 5000 {[ "Rent" := 2000 ]} = Ok s /\
    bs_remaining s <= 5000 /\ bs_savings_rate s <= 100.
Proof.
  assert (Hinc : 0 < 5000) by (unfold Qlt; simpl; lia).
  assert (Hexp : map_Forall (fun (_ : string) v => 0 <= v)
                            ({[ "Rent" := 2000 ]} : gmap string Q)).
  { apply map_Forall_singleton. unfold Qle; simpl; lia. }
  split; [exact Hinc|].
  destruct (budget_summary_bounds 5000 {[ "Rent" := 2000 ]} Hinc Hexp)
    as (s & Hs & Hrem & Hrate & _).
  exists s. split; [exact Hs|]. split; [exact Hrem | exact Hrate].
Defined.

(** X23: entering an amount under a category lowers [remaining] by it:
    for a category not yet in the mapping the total grows and the remaining
    amount falls by the amount; for a category already present (the last
    write wins) they change by the difference to the old amount. *)
Theorem budget_summary_add_category
  (income : Q) (expenses : gmap string Q) (category : string) (amount : Q) :
  exists s s',
    calculate_budget_summary income expenses = Ok s /\
    calculate_budget_summary income (<[category:=amount]> expenses) = Ok s' /\
    (expenses !! category = None ->
     bs_total_expenses s' == bs_total_expenses s + amount /\
     bs_remaining s' == bs_remaining s - amount) /\
    (forall old, expenses !! category = Some old ->
     bs_total_expenses s' == bs_total_expenses s - old + amount /\
     bs_remaining s' == bs_remaining s + old - amount).
Proof.
  destruct (budget_summary_total income expenses) as (s & Hs & _ & Ht & Hr & _).
  destruct (budget_summary_total income (<[category:=amount]> expenses))
    as (s' & Hs' & _ & Ht' & Hr' & _).
  exists s, s'. split; [exact Hs|]. split; [exact Hs'|]. split.
  - intros Hk. rewrite Ht', Hr', Ht, Hr, sum_values_insert by exact Hk.
    split; ring.
  - intros old Hk. rewrite Ht', Hr', Ht, Hr, (sum_values_overwrite _ _ old) by exact Hk.
    split; ring.
Qed.

Lemma budget_summary_add_category_witness :
  exists s s',
    calculate_budget_summary 5000 {[ "Rent" := 2000 ]} = Ok s /\
    calculate_budget_summary 5000 (<[ "Food" := 600 ]> {[ "Rent" := 2000 ]}) = Ok s' /\
    bs_remaining s' == bs_remaining s - 600.
Proof.
  destruct (budget_summary_add_category 5000 {[ "Rent" := 2000 ]} "Food" 600)
    as (s & s' & Hs & Hs' & Hfresh & _).
  exists s, s'. split; [exact Hs|]. split; [exact Hs'|].
  apply Hfresh. reflexivity.
Defined.

(** *** Net worth *)

Lemma net_worth_totals (assets liabilities : option (gmap string Q)) :
  calculate_net_worth assets liabilities
  = (default 0 (sum_values <$> assets) - default 0 (sum_values <$> liabilities),
     default 0 (sum_values <$> assets),
     default 0 (sum_values <$> liabilities)).
Proof.
  unfold calculate_net_worth.
  assert (H : forall o : option (gmap string Q),
            match o with
            | Some m => if decide (m = ∅) then 0 else sum_values m
            | None => 0
            end = default 0 (sum_values <$> o)).
  { intros [m|]; [|reflexivity]. cbn. destruct (decide (m = ∅)) as [-> |]; [|reflexivity].
    now rewrite sum_values_empty. }
  now rewrite !H.
Qed.

(** X24: net worth is the asset total less the liability total, and a
    missing ([None]) mapping counts like an empty one; recording a new
    asset of value [v] raises the net worth and the asset total by [v] and
    leaves the liability total alone, and a new liability lowers the net
    worth by its amount. *)
Theorem net_worth_add_entry
  (assets liabilities : gmap string Q) (name : string) (v nw at_ lt_ : Q) :
  calculate_net_worth (Some assets) (Some liabilities) = (nw, at_, lt_) ->
  nw = at_ - lt_ /\
  calculate_net_worth None (Some liabilities)
  = calculate_net_worth (Some ∅) (Some liabilities) /\
  calculate_net_worth (Some assets) None
  = calculate_net_worth (Some assets) (Some ∅) /\
  (assets !! name = None ->
   exists nw' at',
     calculate_net_worth (Some (<[name:=v]> assets)) (Some liabilities)
     = (nw', at', lt_) /\
     nw' == nw + v /\ at' == at_ + v) /\
  (liabilities !! name = None ->
   exists nw' lt',
     calculate_net_worth (Some assets) (Some (<[name:=v]> liabilities))
     = (nw', at_, lt') /\
     nw' == nw - v /\ lt' == lt_ + v).
Proof.
  rewrite !net_worth_totals. cbn [fmap option_fmap option_map default from_option].
  unfold id. intros [= <- <- <-]. rewrite sum_values_empty.
  split; [reflexivity|]. split; [reflexivity|]. split; [reflexivity|]. split.
  - intros Hk. rewrite sum_values_insert by exact Hk.
    eexists _, _. split; [reflexivity|]. split; [ring | reflexivity].
  - intros Hk. rewrite sum_values_insert by exact Hk.
    eexists _, _. split; [reflexivity|]. split; [ring | reflexivity].
Qed.

Lemma net_worth_add_entry_witness :
  exists nw nw' at',
    calculate_net_worth (Some {[ "cash" := 1000 ]}) (Some {[ "loan" := 400 ]})
    = (nw, 0 + 1000, 0 + 400) /\
    calculate_net_worth (Some (<[ "car" := 500 ]> {[ "cash" := 1000 ]}))
                        (Some {[ "loan" := 400 ]})
    = (nw', at', 0 + 400) /\
    nw' == nw + 500.
Proof.
  assert (E : calculate_net_worth (Some {[ "cash" := 1000 ]}) (Some {[ "loan" := 400 ]})
              = (0 + 1000 - (0 + 400), 0 + 1000, 0 + 400)) by reflexivity.
  destruct (net_worth_add_entry {[ "cash" := 1000 ]} {[ "loan" := 400 ]} "car" 500
              _ _ _ E) as (_ & _ & _ & Hfresh & _).
  destruct (Hfresh eq_refl) as (nw' & at' & E' & Hnw & _).
  exists (0 + 1000 - (0 + 400)), nw', at'.
  split; [exact E|]. split; [exact E' | exact Hnw].
Defined.

(** The example of the specification. *)
Example net_worth_cash_loan :
  exists nw at_ lt_,
    calculate_net_worth (Some {[ "cash" := 1000 ]}) (Some {[ "loan" := 400 ]})
    = (nw, at_, lt_) /\
    nw == 600 /\ at_ == 1000 /\ lt_ == 400.
Proof. eexists _, _, _. split; [reflexivity|]. repeat split; reflexivity. Qed.

(** ** Expense categorization *)

Lemma matching_category_in (description category : string) :
  matching_category description = Some category ->
  In category (map fst category_keywords).
Proof.
  unfold matching_category. destruct (List.find _ _) as [ck|] eqn:E; [|discriminate].
  intros [= <-]. apply find_some in E as [Hin _]. now apply in_map.
Qed.

Lemma initial_categories_lookup (category : string) :
  In category category_names -> initial_categories !! category = Some 0.
Proof.
  cbn [category_names category_keywords map fst app In].
  intros H. repeat (destruct H as [<- | H]; [reflexivity|]). destruct H.
Qed.

Lemma initial_categories_dom (category : string) :
  is_Some (initial_categories !! category) -> In category category_names.
Proof.
  intros H. apply elem_of_dom in H. unfold initial_categories in H.
  rewrite dom_insert_L, dom_list_to_map_L in H.
  apply elem_of_union in H as [H | H].
  - apply elem_of_singleton in H as ->. unfold category_names.
    apply in_or_app. right. now left.
  - apply elem_of_list_to_set in H. apply list_elem_of_In in H.
    unfold category_names. apply in_or_app. left.
    rewrite <- list_fmap_compose in H. exact H.
Qed.

Lemma sum_values_filter_positive (m : gmap string Q) :
  map_Forall (fun _ v => 0 <= v) m ->
  sum_values (filter (fun kv : string * Q => py_gt (snd kv) 0 = true) m)
  == sum_values m.
Proof.
  induction m as [|k v m Hk IH] using map_ind; intros H.
  - now rewrite map_filter_empty.
  - apply map_Forall_insert in H as [Hv Hm]; [|exact Hk].
    rewrite sum_values_insert by exact Hk.
    destruct (py_gt v 0) eqn:E.
    + rewrite map_filter_insert_True by exact E.
      rewrite sum_values_insert.
      * now rewrite IH.
      * apply map_lookup_filter_None. left. exact Hk.
    + rewrite map_filter_insert_False by (cbn; congruence).
      rewrite delete_id by exact Hk. rewrite IH by exact Hm.
      apply py_gt_false in E. assert (Hz : v == 0) by lra. rewrite Hz. ring.
Qed.

Lemma initial_categories_ok : categories_ok initial_categories.
Proof.
  split.
  - intros c. split; [apply initial_categories_dom|].
    intros H. rewrite (initial_categories_lookup c H). eauto.
  - intros c v Hc.
    assert (Hin : In c category_names) by (apply initial_categories_dom; eauto).
    rewrite (initial_categories_lookup c Hin) in Hc. injection Hc as <-.
    apply Qle_refl.
Qed.

Lemma add_to_category_ok (m : gmap string Q) (c : string) (x : Q) :
  categories_ok m -> In c category_names -> 0 <= x ->
  exists m', add_to_category m c x = Some m' /\
             categories_ok m' /\
             sum_values m' == sum_values m + x /\
             forall c', c' <> c -> m' !! c' = m !! c'.
Proof.
  intros [Hdom Hpos] Hc Hx. unfold add_to_category.
  destruct (proj2 (Hdom c) Hc) as [v Hv]. rewrite Hv.
  eexists. split; [reflexivity|]. split; [split|split].
  - intros c'. destruct (decide (c = c')) as [<- | Hne].
    + rewrite lookup_insert_eq. split; [intros _; exact Hc | eauto].
    + rewrite lookup_insert_ne by exact Hne. apply Hdom.
  - apply map_Forall_insert_2; [|exact Hpos].
    specialize (Hpos c v Hv). cbn in Hpos. lra.
  - rewrite (sum_values_overwrite m c v) by exact Hv. ring.
  - intros c' Hne. now rewrite lookup_insert_ne by congruence.
Qed.

Section CategorizeLoop.

Variable str_lower : string -> string.

Lemma categorize_transaction_ok (m : gmap string Q) (t : Transaction) :
  categories_ok m ->
  exists m', categorize_transaction str_lower m t = Some m' /\
             categories_ok m' /\
             sum_values m' == sum_values m + expense_amount_of t.
Proof using Type.
  intros Hm. unfold categorize_transaction, expense_amount_of.
  destruct (py_le (tr_amount t) 0).
  - destruct (matching_category _) as [c|] eqn:Ec.
    + apply matching_category_in in Ec.
      destruct (add_to_category_ok m c (Qabs (tr_amount t)) Hm) as (m' & H1 & H2 & H3 & _).
      * unfold category_names. apply in_or_app. now left.
      * apply Qabs_nonneg.
      * exists m'. auto.
    + destruct (add_to_category_ok m "Other" (Qabs (tr_amount t)) Hm)
        as (m' & H1 & H2 & H3 & _).
      * unfold category_names. apply in_or_app. right. now left.
      * apply Qabs_nonneg.
      * exists m'. auto.
  - exists m. split; [reflexivity|]. split; [exact Hm | ring].
Qed.

Lemma categorize_loop_ok (transactions : list Transaction) :
  forall m, categories_ok m ->
  exists m', option_for (categorize_transaction str_lower) transactions m = Some m' /\
             categories_ok m' /\
             sum_values m' == sum_values m + sum_over expense_amount_of transactions.
Proof using Type.
  induction transactions as [|t ts IH]; intros m Hm; cbn [option_for].
  - exists m. split; [reflexivity|]. split; [exact Hm|]. unfold sum_over. cbn. ring.
  - destruct (categorize_transaction_ok m t Hm) as (m1 & -> & Hm1 & Hs1).
    destruct (IH m1 Hm1) as (m' & Hloop & Hm' & Hs).
    exists m'. split; [exact Hloop|]. split; [exact Hm'|].
    rewrite Hs, Hs1. unfold sum_over. cbn [fold_right]. ring.
Qed.

End CategorizeLoop.

Lemma sum_values_all_zero (m : gmap string Q) :
  map_Forall (fun _ v => v == 0) m -> sum_values m == 0.
Proof.
  induction m as [|k v m Hk IH] using map_ind; intros H.
  - now rewrite sum_values_empty.
  - apply map_Forall_insert in H as [Hv Hm]; [|exact Hk].
    rewrite sum_values_insert by exact Hk. rewrite IH by exact Hm.
    cbn in Hv. rewrite Hv. ring.
Qed.

Lemma sum_values_initial_categories : sum_values initial_categories == 0.
Proof.
  apply sum_values_all_zero. intros c v Hc.
  assert (Hin : In c category_names) by (apply initial_categories_dom; eauto).
  rewrite (initial_categories_lookup c Hin) in Hc. now injection Hc as <-.
Qed.

(** X25: categorization never fails with a KeyError, whatever the
    transactions and the lower-casing; the mapping it returns has only
    the ten categories of the keyword table and "Other" as keys, and
    only strictly positive amounts. *)
Theorem categorize_expenses_keys_positive
  (str_lower : string -> string) (transactions : list Transaction) :
  exists result,
    categorize_expenses str_lower transactions = Some result /\
    forall category amount,
      result !! category = Some amount ->
      0 < amount /\ In category category_names.
Proof.
  destruct (categorize_loop_ok str_lower transactions initial_categories
              initial_categories_ok) as (m & Hloop & [Hdom _] & _).
  unfold categorize_expenses. rewrite Hloop. eexists. split; [reflexivity|].
  intros c v Hc. apply map_lookup_filter_Some in Hc as [Hc Hpos]. cbn in Hpos.
  split; [now apply py_gt_true | apply Hdom; eauto].
Qed.

(** X26: categorization conserves the money: the amounts of the returned
    mapping add up to the sum of the absolute values of the expense
    transactions (those with [amount <= 0]); transactions with a positive
    amount contribute nothing. *)
Theorem categorize_expenses_conserves_total
  (str_lower : string -> string) (transactions : list Transaction) :
  exists result,
    categorize_expenses str_lower transactions = Some result /\
    sum_values result == sum_over expense_amount_of transactions.
Proof.
  destruct (categorize_loop_ok str_lower transactions initial_categories
              initial_categories_ok) as (m & Hloop & [_ Hpos] & Hsum).
  unfold categorize_expenses. rewrite Hloop. eexists. split; [reflexivity|].
  rewrite sum_values_filter_positive by exact Hpos.
  rewrite Hsum, sum_values_initial_categories. ring.
Qed.

(** X27: income is skipped: removing the transactions with a positive
    amount from the input does not change the result. *)
Theorem categorize_expenses_ignores_income
  (str_lower : string -> string) (transactions : list Transaction) :
  categorize_expenses str_lower
    (List.filter (fun t => py_le (tr_amount t) 0) transactions)
  = categorize_expenses str_lower transactions.
Proof.
  unfold categorize_expenses. f_equal.
  generalize initial_categories.
  induction transactions as [|t ts IH]; intros m; [reflexivity|].
  cbn [List.filter]. destruct (py_le (tr_amount t) 0) eqn:E.
  - cbn [option_for]. destruct (categorize_transaction str_lower m t); [apply IH | reflexivity].
  - cbn [option_for]. unfold categorize_transaction at 2. rewrite E. apply IH.
Qed.

Lemma categorize_expenses_keys_positive_witness :
  exists result,
    categorize_expenses (fun s => s)
      [ {| tr_amount := -40; tr_description := "gas station" |};
        {| tr_amount := 2500; tr_description := "salary" |} ] = Some result /\
    forall category amount,
      result !! category = Some amount -> 0 < amount /\ In category category_names.
Proof.
  exact (categorize_expenses_keys_positive (fun s => s)
           [ {| tr_amount := -40; tr_description := "gas station" |};
             {| tr_amount := 2500; tr_description := "salary" |} ]).
Defined.

(** The first match wins: a description containing "gas" is booked under
    Housing or Utilities, which come before Transportation in the table. *)
Lemma matching_category_gas (description : string) :
  py_contains "gas" description = true ->
  matching_category description = Some "Housing"%string
  \/ matching_category description = Some "Utilities"%string.
Proof.
  intros Hgas. unfold matching_category.
  cbn [category_keywords List.find snd existsb].
  destruct (_ || _)%bool; [left; reflexivity|].
  rewrite Hgas. rewrite orb_true_r. cbn [orb]. right. reflexivity.
Qed.

(** X28: the keyword "gas" is listed under both Utilities and
    Transportation, and the first match wins: when the lower-cased
    description of every transaction contains "gas", nothing at all is
    booked under Transportation. *)
Theorem categorize_expenses_gas_not_transportation
  (str_lower : string -> string) (transactions : list Transaction) :
  (forall t, In t transactions ->
     py_contains "gas" (str_lower (tr_description t)) = true) ->
  exists result,
    categorize_expenses str_lower transactions = Some result /\
    result !! "Transportation"%string = None.
Proof.
  intros Hgas.
  assert (H : forall ts m,
            (forall t, In t ts -> In t transactions) ->
            categories_ok m -> m !! "Transportation"%string = Some 0 ->
            exists m', option_for (categorize_transaction str_lower) ts m = Some m' /\
                       m' !! "Transportation"%string = Some 0).
  { induction ts as [|t ts IH]; intros m Hin Hm Ht; cbn [option_for].
    - exists m. split; [reflexivity | exact Ht].
    - assert (Hstep : exists m1, categorize_transaction str_lower m t = Some m1 /\
                                 categories_ok m1 /\
                                 m1 !! "Transportation"%string = Some 0).
      { unfold categorize_transaction. destruct (py_le (tr_amount t) 0).
        - destruct (matching_category_gas _ (Hgas t (Hin t (in_eq _ _)))) as [-> | ->].
          + destruct (add_to_category_ok m "Housing" (Qabs (tr_amount t)) Hm)
              as (m1 & H1 & H2 & _ & H4).
            * apply initial_categories_dom. eauto.
            * apply Qabs_nonneg.
            * exists m1. split; [exact H1|]. split; [exact H2|].
              rewrite H4 by discriminate. exact Ht.
          + destruct (add_to_category_ok m "Utilities" (Qabs (tr_amount t)) Hm)
              as (m1 & H1 & H2 & _ & H4).
            * apply initial_categories_dom. eauto.
            * apply Qabs_nonneg.
            * exists m1. split; [exact H1|]. split; [exact H2|].
              rewrite H4 by discriminate. exact Ht.
        - exists m. auto. }
      destruct Hstep as (m1 & -> & Hm1 & Ht1).
      apply IH; [|exact Hm1 | exact Ht1].
      intros t' Ht'. apply Hin. now apply in_cons. }
  destruct (H transactions initial_categories (fun t Ht => Ht)
              initial_categories_ok eq_refl) as (m & Hloop & Ht).
  unfold categorize_expenses. rewrite Hloop. eexists. split; [reflexivity|].
  apply map_lookup_filter_None. right. intros v Hv.
  rewrite Ht in Hv. injection Hv as <-. cbn. discriminate.
Qed.

Lemma categorize_expenses_gas_not_transportation_witness :
  exists result,
    categorize_expenses (fun s => s)
      [ {| tr_amount := -40; tr_description := "gas station" |} ] = Some result /\
    result !! "Transportation"%string = None.
Proof.
  apply (categorize_expenses_gas_not_transportation (fun s => s)
           [ {| tr_amount := -40; tr_description := "gas station" |} ]).
  intros t [<- | []]. reflexivity.
Defined.

(** * The formulas on binary64 floats *)

Module Binary64Facts.

Import PrimFloat.

Local Open Scope float_scope.

(** ** Comparisons with zero *)

Lemma positive_not_zero (m : float) : (0 <? m) = true -> is_zero m = false.
Proof.
  unfold is_zero. rewrite FloatAxioms.ltb_spec, FloatAxioms.eqb_spec.
  change (FloatOps.Prim2SF 0) with (SpecFloat.S754_zero false).
  destruct (FloatOps.Prim2SF m) as [s | s | | s mm e]; try destruct s; cbn; congruence.
Qed.

Lemma zero_not_nan (x : float) : is_zero x = true -> is_nan x = false.
Proof.
  unfold is_zero, is_nan. rewrite !FloatAxioms.eqb_spec.
  change (FloatOps.Prim2SF 0) with (SpecFloat.S754_zero false).
  destruct (FloatOps.Prim2SF x) as [s | s | | s mm e]; try destruct s; cbn; congruence.
Qed.

Lemma zero_not_infinity (x : float) : is_zero x = true -> is_infinity x = false.
Proof.
  unfold is_zero, is_infinity. rewrite !FloatAxioms.eqb_spec, FloatAxioms.abs_spec.
  change (FloatOps.Prim2SF 0) with (SpecFloat.S754_zero false).
  change (FloatOps.Prim2SF infinity) with (SpecFloat.S754_infinity false).
  destruct (FloatOps.Prim2SF x) as [s | s | | s mm e]; try destruct s; cbn; congruence.
Qed.

(** ** Exceptions of the power *)

Lemma float_of_int_raises (z : Z) (e : pyexn) :
  Binary64.float_of_int z = Raise e -> e = OverflowError.
Proof.
  unfold Binary64.float_of_int. destruct (is_infinity _); congruence.
Qed.

Section PowExceptions.

Variable libm_pow : float -> float -> float.

(** The power raises ZeroDivisionError exactly on a zero base with a
    negative exponent that converts to a float. *)
Lemma py_float_pow_zero_division (iv : float) (n : Z) :
  Binary64.py_float_pow libm_pow iv n = Raise ZeroDivisionError
  <-> (n < 0)%Z /\ Binary64.float_of_int n <> Raise OverflowError
      /\ is_zero iv = true.
Proof.
  unfold Binary64.py_float_pow.
  destruct (Binary64.float_of_int n) as [iw | e] eqn:En; cbn [pybind].
  2:{ apply float_of_int_raises in En as ->.
      split; [discriminate | intros (_ & H & _); now contradiction H]. }
  destruct (n =? 0)%Z eqn:E0.
  { apply Z.eqb_eq in E0. split; [discriminate | intros (H & _); lia]. }
  destruct (is_zero iv) eqn:Ez.
  - rewrite (zero_not_nan iv Ez), (zero_not_infinity iv Ez).
    destruct (n <? 0)%Z eqn:Elt.
    + apply Z.ltb_lt in Elt. split; [intros _ | reflexivity].
      split; [exact Elt|]. split; [discriminate | reflexivity].
    + apply Z.ltb_ge in Elt. split; [discriminate | intros (H & _); lia].
  - split; [|intros (_ & _ & H); discriminate H].
    destruct (is_nan iv); [discriminate|].
    destruct (is_infinity iv); [destruct (0 <? n)%Z; discriminate|].
    match goal with |- context [if ?b =? 1 then _ else _] => destruct (b =? 1) end;
      [discriminate|].
    match goal with |- context [if is_infinity ?x then _ else _] =>
      destruct (is_infinity x) end; discriminate.
Qed.

(** When the power returns, the exponent was converted. *)
Lemma py_float_pow_converts (iv : float) (n : Z) (g : float) :
  Binary64.py_float_pow libm_pow iv n = Ok g ->
  exists iw, Binary64.float_of_int n = Ok iw.
Proof.
  unfold Binary64.py_float_pow.
  destruct (Binary64.float_of_int n) as [iw | e]; cbn [pybind]; [eauto | discriminate].
Qed.

End PowExceptions.

(** ** The closed form against the simulation *)

(** C1: at the rate [2 ** -57], with an initial investment of 1000, a
    monthly contribution of 100 and a term of 3 years, the closed-form
    calculator returns a final amount of 1000 (its contributions term is
    lost: the monthly factor rounds to 1 while the monthly rate is positive)
    and earnings of -3600, whereas the simulation ends year 3 at 4600. *)
Theorem closed_form_loses_contributions (libm_pow : float -> float -> float) :
  Binary64.calculate_investment_returns libm_pow 1000 100 3 0x1p-57
  = Ok (1000, 4600, -3600) /\
  nth_error (Binary64.create_investment_growth_chart 1000 100 3 0x1p-57) 3
  = Some {| Binary64.ip_year := 3;
            Binary64.ip_value := 4600;
            Binary64.ip_contributions := 4600;
            Binary64.ip_earnings := 0 |}.
Proof. split; vm_compute; reflexivity. Qed.

(** ** The loan payment at a rate too small for the monthly factor *)

(** C3: at the rate [2 ** -57], for a principal of 1000 over 5 years, the
    loan payment raises ZeroDivisionError, and so does the schedule: the
    monthly rate is not zero, so the annuity branch is taken, and there the
    monthly factor rounds to 1 and the divisor [1 ** 60 - 1] is zero. *)
Theorem amortization_tiny_rate_raises (libm_pow : float -> float -> float) :
  Binary64.calculate_loan_payment libm_pow 1000 0x1p-57 5 = Raise ZeroDivisionError /\
  Binary64.generate_amortization_schedule libm_pow 1000 0x1p-57 5
  = Raise ZeroDivisionError.
Proof. split; vm_compute; reflexivity. Qed.

(** ** Exceptions of the closed form *)

(** X5: the closed-form calculator raises ZeroDivisionError exactly when the
    term is negative (and converts to a float) and the monthly factor
    [1 + rate / 12] is zero; and it returns a result whenever the power
    [(1 + rate / 12) ** months] returns one. *)
Theorem investment_returns_raises_iff (libm_pow : float -> float -> float)
  (initial_investment monthly_contribution : float) (years : Z) (rate_of_return : float) :
  (Binary64.calculate_investment_returns libm_pow initial_investment monthly_contribution
     years rate_of_return = Raise ZeroDivisionError
   <-> (years < 0)%Z /\ Binary64.float_of_int (years * 12) <> Raise OverflowError
       /\ is_zero (1 + rate_of_return / 12) = true) /\
  (forall g,
     Binary64.py_float_pow libm_pow (1 + rate_of_return / 12) (years * 12) = Ok g ->
     exists res,
       Binary64.calculate_investment_returns libm_pow initial_investment
         monthly_contribution years rate_of_return = Ok res).
Proof.
  pose proof (py_float_pow_zero_division libm_pow (1 + rate_of_return / 12) (years * 12))
    as Hzde.
  assert (Hret : forall g,
    Binary64.py_float_pow libm_pow (1 + rate_of_return / 12) (years * 12) = Ok g ->
    exists res,
      Binary64.calculate_investment_returns libm_pow initial_investment
        monthly_contribution years rate_of_return = Ok res).
  { intros g Hg. unfold Binary64.calculate_investment_returns.
    destruct (py_float_pow_converts _ _ _ _ Hg) as [m Hm].
    rewrite Hg, Hm. cbn [pybind].
    destruct (0 <? rate_of_return / 12) eqn:Hpos; cbn [pybind].
    - unfold Binary64.float_div. rewrite (positive_not_zero _ Hpos). cbn [pybind].
      eexists. reflexivity.
    - eexists. reflexivity. }
  split; [|exact Hret].
  destruct (Binary64.py_float_pow libm_pow (1 + rate_of_return / 12) (years * 12))
    as [g | e] eqn:Hpow.
  - destruct (Hret g eq_refl) as [res ->].
    split; [discriminate|]. intros (H1 & H2 & H3).
    assert (H : Ok g = Raise ZeroDivisionError); [|discriminate H].
    apply Hzde. split; [lia|]. split; assumption.
  - unfold Binary64.calculate_investment_returns. rewrite Hpow. cbn [pybind].
    split.
    + intros [= ->]. destruct (proj1 Hzde eq_refl) as (H1 & H2 & H3).
      split; [lia|]. split; assumption.
    + intros (H1 & H2 & H3).
      assert (H : Raise e = Raise ZeroDivisionError :> pyresult float).
      { apply Hzde. split; [lia|]. split; assumption. }
      now injection H as ->.
Qed.

Lemma investment_returns_raises_iff_witness :
  Binary64.calculate_investment_returns (fun x _ => x) 1000 50 (-1) (-12)
  = Raise ZeroDivisionError.
Proof.
  apply (proj1 (investment_returns_raises_iff (fun x _ => x) 1000 50 (-1) (-12))).
  split; [lia|]. split; [vm_compute; discriminate | vm_compute; reflexivity].
Defined.

End Binary64Facts.
